(** * go-database, chapter 01: saving data to disk

    A shallow embedding of [cmd/main.go]: the two writers [SaveData1]
    (update in place) and [SaveData2] (write a temporary file, then rename),
    run against a model of the part of Go's [os] package they call.

    The file system is a finite map from path names to file contents, a set
    of directory names and a set of names of symbolic links to directories.
    Names are compared as they are spelled, directories without their
    trailing separators.  Every call of the [os] package is logged, so that
    properties about which paths a writer touches can be stated on the log.
    Failures of the operating system are injected through an [oracle]
    record. *)

From Stdlib Require Import ZArith NArith Lia.
From Stdlib Require Import Strings.String Strings.Ascii Strings.Byte.
From stdpp Require Import gmap strings list fin_maps.

Local Open Scope string_scope.

(** ** Errors *)

(** Error numbers of the operating system that the model can produce. *)
Inductive Errno : Set :=
| EEXIST | ENOENT | ENOTDIR | EISDIR | EIO | ENOSPC | EACCES | EROFS
| EINVAL | ENAMETOOLONG.


(** Values of Go's [error] interface that reach the writers: the four package
    level sentinels of [main.go] (lines 14-19), the wrapped errors of package
    [os], and [io.ErrShortWrite]. *)
Inductive error : Set :=
| WriteErr
| OpenErr
| SyncErr
| FolderErr
| PathError (op path : string) (e : Errno)
| LinkError (op old new : string) (e : Errno)
| ErrShortWrite.

Global Instance Errno_eq_dec : EqDecision Errno.
Proof. solve_decision. Defined.

Global Instance error_eq_dec : EqDecision error.
Proof. solve_decision. Defined.

(** ** The world: files, directories, links and the log of calls *)

Inductive event : Set :=
| EvMkdirAll (p : string)
| EvOpenFile (p : string) (flag : Z)
| EvWrite (p : string)
| EvSync (p : string)
| EvClose (p : string)
| EvRemove (p : string)
| EvRename (old new : string).

(** Regular files are kept under the name they were opened with.
    Directories and symbolic links are kept under their name without
    trailing separators.  A name in [w_links] is a symbolic link that points
    to a directory. *)
Record world : Type := World {
  w_files : gmap string (list byte);
  w_dirs : gset string;
  w_links : gset string;
  w_log : list event
}.

(** Failures and random numbers supplied by the environment for one call of
    a writer.  [None] means that the operating system does not fail the
    call by itself (the call can still fail for a reason visible in the
    world, such as an exclusive create of a name that exists).  When
    [o_mkdir] makes [MkdirAll] fail, [o_mkdir_made] says how many missing
    ancestors the call had created by then. *)
Record oracle : Type := Oracle {
  o_rand : Z;
  o_mkdir : option Errno;
  o_open : option Errno;
  o_write_accept : option nat;
  o_write : option Errno;
  o_sync : option Errno;
  o_rename : option Errno;
  o_mkdir_made : nat;
  o_remove : option Errno
}.

(** The oracle of an operating system that injects no failure. *)
Definition calm (r : Z) : oracle :=
  Oracle r None None None None None None 0 None.

(** ** A state monad for code that calls the operating system *)

Definition io (A : Type) : Type := world → A * world.

Global Instance io_ret : MRet io := λ A (x : A) (w : world), (x, w).

Global Instance io_bind : MBind io :=
  λ A B (f : A → io B) (m : io A) (w : world), let '(x, w') := m w in f x w'.

Definition emit (ev : event) : io unit :=
  λ w, (tt, World (w_files w) (w_dirs w) (w_links w) (w_log w ++ [ev])%list).

Definition get_world : io world := λ w, (w, w).

Definition set_files (fs : gmap string (list byte)) : io unit :=
  λ w, (tt, World fs (w_dirs w) (w_links w) (w_log w)).

Definition set_dirs (ds : gset string) : io unit :=
  λ w, (tt, World (w_files w) ds (w_links w) (w_log w)).

Definition set_links (ls : gset string) : io unit :=
  λ w, (tt, World (w_files w) (w_dirs w) ls (w_log w)).

(** ** Package [strconv], [math/rand] and [fmt] *)

Module strconv.

Definition digit (n : N) : ascii :=
  ascii_of_N (48 + n mod 10).

(** The loop of [formatBits] for base ten: the least significant digit is
    produced first and put in front of what has been produced. *)
Fixpoint digits (fuel : nat) (n : N) (acc : string) : string :=
  let acc' := String (digit n) acc in
  match fuel with
  | O => acc'
  | S fuel' => if (n / 10 =? 0)%N then acc' else digits fuel' (n / 10)%N acc'
  end.

Definition FormatUint (n : N) : string :=
  digits (N.to_nat (N.log2 n)) n "".

Definition Itoa (i : Z) : string :=
  if (i <? 0)%Z then String "-" (FormatUint (Z.to_N (- i)))
  else FormatUint (Z.to_N i).

End strconv.

Module rand.

(** [rand.Int] returns a non-negative pseudo-random [int]: 63 bits of the
    generator's output. *)
Definition Int (o : oracle) : Z := Z.land (o_rand o) (Z.ones 63).

End rand.

Module fmt.

(** [fmt.Sprintf("%s.tmp.%s", a, b)] *)
Definition Sprintf_tmp (a b : string) : string := a +:+ ".tmp." +:+ b.

End fmt.

(** ** Path names *)

Module pathname.

Definition is_sep (c : ascii) : bool := bool_decide (c = "/"%char).

(** The name without its trailing separators; the empty string for a name
    made of separators only. *)
Fixpoint trim (s : string) : string :=
  match s with
  | EmptyString => EmptyString
  | String c s' =>
      match trim s' with
      | EmptyString => if is_sep c then EmptyString else String c EmptyString
      | t => String c t
      end
  end.

Fixpoint ends_sep (s : string) : bool :=
  match s with
  | EmptyString => false
  | String c EmptyString => is_sep c
  | String _ s' => ends_sep s'
  end.

Fixpoint has_sep (s : string) : bool :=
  match s with
  | EmptyString => false
  | String c s' => is_sep c || has_sep s'
  end.

(** The part of a name up to and including its last separator: the
    directory that holds the last component.  Empty when the name has no
    separator. *)
Fixpoint dir_of (s : string) : string :=
  match s with
  | EmptyString => EmptyString
  | String c s' => if is_sep c || has_sep s' then String c (dir_of s') else EmptyString
  end.

(** The parent that [os.MkdirAll] computes: trailing separators are dropped,
    then the last component. *)
Definition parent (s : string) : string := dir_of (trim s).

(** The last component of a name: what follows its last separator. *)
Fixpoint base (s : string) : string :=
  match s with
  | EmptyString => EmptyString
  | String c s' => if has_sep s then base s' else s
  end.

(** A name whose last component is [.] or [..] names a directory. *)
Definition dot_name (s : string) : bool :=
  bool_decide (base s = ".") || bool_decide (base s = "..").

Fixpoint has_nul (s : string) : bool :=
  match s with
  | EmptyString => false
  | String c s' => bool_decide (c = "000"%char) || has_nul s'
  end.

(** Some component is longer than [limit]; [run] is the length of the
    component being read. *)
Fixpoint long_component (limit run : nat) (s : string) : bool :=
  match s with
  | EmptyString => false
  | String c s' =>
      if is_sep c then long_component limit 0 s'
      else (limit <? S run)%nat || long_component limit (S run) s'
  end.

(** The names that the system calls refuse whatever the file system holds:
    a zero byte in the name, a name of [PATH_MAX] bytes or more, a component
    of more than [NAME_MAX] bytes. *)
Definition invalid (s : string) : option Errno :=
  if has_nul s then Some EINVAL
  else if (4096 <=? String.length s)%nat then Some ENAMETOOLONG
  else if long_component 255 0 s then Some ENAMETOOLONG
  else None.

End pathname.

(** ** Package [os] *)

Module os.

Import pathname.

Definition O_WRONLY : Z := 1.
Definition O_CREATE : Z := 64.
Definition O_EXCL : Z := 128.
Definition O_TRUNC : Z := 512.

Definition has_flag (flag bit : Z) : bool := negb (Z.land flag bit =? 0)%Z.

(** An open file.  Each handle is written once by the writers, right after
    it is opened, so the write position is the start of the file. *)
Record File : Set := { Name : string }.

(** What [Stat] says of a name: a directory when the name, without its
    trailing separators, is the root, [.], [..], a directory of the world
    or a symbolic link to one. *)
Definition is_dir (w : world) (p : string) : bool :=
  negb (bool_decide (p = "")) && bool_decide (invalid p = None) &&
  (bool_decide (trim p = "") || bool_decide (trim p = ".") ||
   bool_decide (trim p = "..") || bool_decide (trim p ∈ w_dirs w) ||
   bool_decide (trim p ∈ w_links w)).

Definition is_regular (w : world) (p : string) : bool :=
  bool_decide (is_Some (w_files w !! trim p)).

(** What [Lstat] sees as a symbolic link: a link named without a trailing
    separator (with one, the link is followed). *)
Definition is_link (w : world) (p : string) : bool :=
  negb (ends_sep p) && bool_decide (p ∈ w_links w).

Definition lstat_is_dir (w : world) (p : string) : bool :=
  is_dir w p && negb (is_link w p).

(** The directory that holds [name] exists. *)
Definition parent_ok (w : world) (name : string) : bool :=
  bool_decide (dir_of name = "") || is_dir w (dir_of name).

(** What a reader that opens [name] and reads it to the end gets: the
    content of the regular file of that name, when the name can be
    resolved. *)
Definition ReadFile (w : world) (name : string) : option (list byte) :=
  if negb (bool_decide (invalid name = None)) || ends_sep name ||
     dot_name name || is_dir w name || negb (parent_ok w name)
  then None
  else w_files w !! name.

(** The recursion of [os.MkdirAll]: nothing to do for a directory, an error
    for a regular file, and otherwise the parent first, then the name
    itself, which the system refuses when it is not valid.  The result is
    the names that get created, outermost first, and the error that ends the
    call after that, if any. *)
Fixpoint mkdir_plan (fuel : nat) (w : world) (p : string)
  : list string * option Errno :=
  if is_dir w p then ([], None)
  else if is_regular w p then ([], Some ENOTDIR)
  else if bool_decide (p = "") then ([], Some ENOENT)
  else
    let up :=
      match fuel with
      | S fuel' =>
          if bool_decide (parent p = "") then ([], None)
          else mkdir_plan fuel' w (parent p)
      | O => ([], None)
      end in
    match up with
    | (ds, Some e) => (ds, Some e)
    | (ds, None) =>
        match invalid p with
        | Some e => (ds, Some e)
        | None => ((ds ++ [p])%list, None)
        end
    end.

(** [os.MkdirAll].  When the system fails the call ([o_mkdir]), the first
    [o_mkdir_made] missing ancestors have been created by then, the last
    name never.  What a failed call has created stays. *)
Definition MkdirAll (o : oracle) (path : string) (perm : Z) : io (option error) :=
  _ ← emit (EvMkdirAll path);
  w ← get_world;
  let '(todo, stop) := mkdir_plan (String.length path) w path in
  match o_mkdir o with
  | Some e =>
      let k := Nat.min (o_mkdir_made o) (length todo - 1) in
      _ ← set_dirs (list_to_set (trim <$> take k todo) ∪ w_dirs w);
      mret (Some (PathError "mkdir" (default path (todo !! k)) e))
  | None =>
      _ ← set_dirs (list_to_set (trim <$> todo) ∪ w_dirs w);
      match stop with
      | Some e => mret (Some (PathError "mkdir" path e))
      | None => mret None
      end
  end.

(** [os.OpenFile] for writing. *)
Definition OpenFile (o : oracle) (name : string) (flag : Z) (perm : Z)
  : io (File + error) :=
  _ ← emit (EvOpenFile name flag);
  w ← get_world;
  let excl := has_flag flag O_CREATE && has_flag flag O_EXCL in
  match o_open o with
  | Some e => mret (inr (PathError "open" name e))
  | None =>
      if bool_decide (name = "") then
        mret (inr (PathError "open" name ENOENT))
      else if negb (bool_decide (invalid name = None)) then
        mret (inr (PathError "open" name (default EINVAL (invalid name))))
      else if ends_sep name || dot_name name || is_dir w name then
        mret (inr (PathError "open" name (if excl then EEXIST else EISDIR)))
      else if negb (parent_ok w name) then
        mret (inr (PathError "open" name
                     (if is_regular w (dir_of name) then ENOTDIR else ENOENT)))
      else
        match w_files w !! name with
        | Some _ =>
            if excl then mret (inr (PathError "open" name EEXIST))
            else if has_flag flag O_TRUNC then
              _ ← set_files (<[name := []]> (w_files w));
              mret (inl {| Name := name |})
            else mret (inl {| Name := name |})
        | None =>
            if has_flag flag O_CREATE then
              _ ← set_files (<[name := []]> (w_files w));
              mret (inl {| Name := name |})
            else mret (inr (PathError "open" name ENOENT))
        end
  end.

(** [File.Write]: the kernel accepts [n] bytes and may report an error;
    it reports [io.ErrShortWrite] when [n] is not the length of the
    buffer, and the kernel's error, wrapped, when there is one. *)
Definition File_Write (o : oracle) (f : File) (b : list byte) : io (nat * option error) :=
  _ ← emit (EvWrite (Name f));
  w ← get_world;
  let n := match o_write_accept o with
           | Some k => Nat.min k (length b)
           | None => length b
           end in
  _ ← match w_files w !! Name f with
      | Some old => set_files (<[Name f := (take n b ++ drop n old)%list]> (w_files w))
      | None => mret tt
      end;
  let err := if decide (n = length b) then None else Some ErrShortWrite in
  let err := match o_write o with
             | Some e => Some (PathError "write" (Name f) e)
             | None => err
             end in
  mret (n, err).

(** [File.Sync] *)
Definition File_Sync (o : oracle) (f : File) : io (option error) :=
  _ ← emit (EvSync (Name f));
  match o_sync o with
  | Some e => mret (Some (PathError "sync" (Name f) e))
  | None => mret None
  end.

(** [File.Close] *)
Definition File_Close (f : File) : io (option error) :=
  _ ← emit (EvClose (Name f));
  mret None.

(** [os.Remove] of a regular file; when the system fails the call the file
    stays.  Directories are not removed in this model: the writers only
    remove the temporary file they created. *)
Definition Remove (o : oracle) (name : string) : io (option error) :=
  _ ← emit (EvRemove name);
  w ← get_world;
  match o_remove o with
  | Some e => mret (Some (PathError "remove" name e))
  | None =>
      match w_files w !! name with
      | Some _ =>
          _ ← set_files (delete name (w_files w));
          mret None
      | None => mret (Some (PathError "remove" name ENOENT))
      end
  end.

(** [os.Rename].  As in Go's implementation for Unix, a new name that
    [Lstat] shows as a directory is refused before the system call is made.
    The system call moves a regular file onto the new name in one step,
    replacing a regular file or a symbolic link of that name. *)
Definition Rename (o : oracle) (oldpath newpath : string) : io (option error) :=
  _ ← emit (EvRename oldpath newpath);
  w ← get_world;
  if lstat_is_dir w newpath then
    if is_regular w oldpath || is_dir w oldpath then
      mret (Some (LinkError "rename" oldpath newpath EEXIST))
    else mret (Some (LinkError "rename" oldpath newpath ENOENT))
  else
    match o_rename o with
    | Some e => mret (Some (LinkError "rename" oldpath newpath e))
    | None =>
        match w_files w !! oldpath with
        | Some c =>
            if bool_decide (newpath = "") then
              mret (Some (LinkError "rename" oldpath newpath ENOENT))
            else if negb (bool_decide (invalid newpath = None)) then
              mret (Some (LinkError "rename" oldpath newpath
                            (default EINVAL (invalid newpath))))
            else if ends_sep newpath || dot_name newpath then
              mret (Some (LinkError "rename" oldpath newpath ENOTDIR))
            else if negb (parent_ok w newpath) then
              mret (Some (LinkError "rename" oldpath newpath ENOENT))
            else
              _ ← set_files (<[newpath := c]> (delete oldpath (w_files w)));
              _ ← set_links (w_links w ∖ {[newpath]});
              mret None
        | None =>
            if bool_decide (trim oldpath ∈ w_dirs w) then
              if is_regular w newpath || negb (parent_ok w (trim newpath)) then
                mret (Some (LinkError "rename" oldpath newpath ENOTDIR))
              else
                _ ← set_dirs ({[trim newpath]} ∪ (w_dirs w ∖ {[trim oldpath]}));
                mret None
            else mret (Some (LinkError "rename" oldpath newpath ENOENT))
        end
    end.

End os.

(** ** The writers of [cmd/main.go] *)

(** [SaveData1], lines 32-52: update the file in place. *)
Definition SaveData1 (o : oracle) (path file : string) (data : list byte)
  : io (option error) :=
  err ← os.MkdirAll o path 493;
  match err with
  | Some _ => mret (Some FolderErr)
  | None =>
      r ← os.OpenFile o (path +:+ file)
            (Z.lor (Z.lor os.O_WRONLY os.O_CREATE) os.O_TRUNC) 436;
      match r with
      | inr _ => mret (Some OpenErr)
      | inl fp =>
          (* defer fp.Close() *)
          ret ← ('(_, err) ← os.File_Write o fp data;
                 match err with
                 | Some _ => mret (Some WriteErr)
                 | None => os.File_Sync o fp
                 end);
          _ ← os.File_Close fp;
          mret ret
      end
  end.

(** The name of the temporary file, lines 71-72. *)
Definition tmp_name (o : oracle) (path file : string) : string :=
  let stamp := strconv.Itoa (rand.Int o) in
  fmt.Sprintf_tmp (path +:+ file) stamp.

(** Lines 93-103 of [SaveData2], the statements after the [defer].  The
    result is the returned error paired with the value that the local
    variable [err] holds when the function returns: the deferred function
    reads that variable, and a [return] statement does not assign it. *)
Definition SaveData2_body (o : oracle) (tmp path : string) (data : list byte)
    (fp : os.File) : io (option error * option error) :=
  '(_, err) ← os.File_Write o fp data;
  match err with
  | Some _ => mret (Some WriteErr, err)
  | None =>
      err ← os.File_Sync o fp;
      match err with
      | Some _ => mret (Some SyncErr, err)
      | None =>
          r ← os.Rename o tmp path;
          mret (r, err)
      end
  end.

(** The deferred function, lines 86-91.  The result of [os.Remove] is
    dropped, as in the source. *)
Definition SaveData2_deferred (o : oracle) (tmp : string) (fp : os.File)
    (err : option error) : io unit :=
  _ ← os.File_Close fp;
  match err with
  | Some _ => _ ← os.Remove o tmp; mret tt
  | None => mret tt
  end.

(** [SaveData2], lines 68-104: write a new file and rename it. *)
Definition SaveData2 (o : oracle) (path file : string) (data : list byte)
  : io (option error) :=
  let tmp := tmp_name o path file in
  err ← os.MkdirAll o path 493;
  match err with
  | Some _ => mret (Some FolderErr)
  | None =>
      r ← os.OpenFile o tmp
            (Z.lor (Z.lor os.O_WRONLY os.O_CREATE) os.O_EXCL) 436;
      match r with
      | inr _ => mret (Some OpenErr)
      | inl fp =>
          '(ret, err) ← SaveData2_body o tmp path data fp;
          _ ← SaveData2_deferred o tmp fp err;
          mret ret
      end
  end.

(** [main], lines 106-120, without the logging: the two errors. *)
Definition main (o1 o2 : oracle) : io (option error * option error) :=
  let path := "./cmd/files/" in
  let file := "hello_world.txt" in
  e1 ← SaveData1 o1 path file (list_byte_of_string "Hello, World!");
  e2 ← SaveData2 o2 path file (list_byte_of_string "Bye, World!");
  mret (e1, e2).

Definition empty_world : world := World ∅ ∅ ∅ [].

(** The open flags of the two writers. *)
Abbreviation flag_trunc := (Z.lor (Z.lor os.O_WRONLY os.O_CREATE) os.O_TRUNC).
Abbreviation flag_excl := (Z.lor (Z.lor os.O_WRONLY os.O_CREATE) os.O_EXCL).

(** A decimal numeral: not empty, and every character is a digit. *)
Definition is_digit (c : ascii) : bool :=
  ((48 <=? N_of_ascii c) && (N_of_ascii c <=? 57))%N.

Fixpoint all_digits (s : string) : bool :=
  match s with
  | EmptyString => true
  | String c s' => is_digit c && all_digits s'
  end.

Definition decimal (s : string) : bool :=
  match s with
  | EmptyString => false
  | String _ _ => all_digits s
  end.

(** The path of the file that a logged call works on; [None] for the calls
    on directory entries ([MkdirAll], [Rename]). *)
Definition file_of (ev : event) : option string :=
  match ev with
  | EvOpenFile p _ | EvWrite p | EvSync p | EvClose p | EvRemove p => Some p
  | EvMkdirAll _ | EvRename _ _ => None
  end.

(** The calls that [SaveData2] may make for a given temporary name. *)
Definition allowed (path tmp : string) (ev : event) : Prop :=
  match ev with
  | EvMkdirAll p => p = path
  | EvRename old _ => old = tmp
  | _ => file_of ev = Some tmp
  end.

(** The number that a string of decimal digits denotes, read from the left
    with [v] the value read so far. *)
Fixpoint decimal_value (s : string) (v : N) : N :=
  match s with
  | EmptyString => v
  | String c s' => decimal_value s' (v * 10 + (N_of_ascii c - 48))%N
  end.

Definition hello : list byte := list_byte_of_string "Hello, World!".
Definition bye : list byte := list_byte_of_string "Bye, World!".

(** The world after [SaveData1] has saved [Hello, World!] to
    [./data/hello.txt], starting from nothing. *)
Definition saved_hello : world :=
  snd (SaveData1 (calm 0) "./data/" "hello.txt" hello empty_world).

(** Oracles that fail one call each. *)
Definition mkdir_denied : oracle :=
  Oracle 7 (Some EACCES) None None None None None 0 None.
Definition disk_full : oracle :=
  Oracle 7 None None (Some 5) (Some ENOSPC) None None 0 None.
Definition short_write : oracle :=
  Oracle 7 None None (Some 5) None None None 0 None.
Definition flush_fails : oracle :=
  Oracle 7 None None None None (Some EIO) None 0 None.
Definition rename_fails : oracle :=
  Oracle 7 None None None None None (Some EIO) 0 None.


(** [MkdirAll] fails after it has created one missing ancestor. *)
Definition mkdir_second_fails : oracle :=
  Oracle 7 (Some ENOSPC) None None None None None 1 None.

(** A directory name of 256 bytes, one more than the system accepts, and a
    path that has it below a missing directory [./new]. *)
Definition long_name : string := string_of_list_ascii (replicate 256 "a"%char).
Definition overlong_path : string := "./new/" +:+ long_name +:+ "/".

(** A world in which the temporary name of stamp 7 is taken. *)
Definition tmp_taken : world :=
  World {[ "./data/hello.txt.tmp.7" := hello ]} {[ "./data" ]} ∅ [].

(** A world in which [data] is a symbolic link to the directory [store],
    which holds [hello.txt]. *)
Definition linked_store : world :=
  World {[ "data/hello.txt" := hello ]} {[ "store" ]} {[ "data" ]} [].

(** ** Running the monad *)

Lemma bind_run {A B} (m : io A) (f : A → io B) (w w' : world) (x : A) :
  m w = (x, w') → (m ≫= f) w = f x w'.
Proof. intros H. unfold mbind, io_bind. by rewrite H. Qed.

Ltac io_simpl :=
  unfold mbind, io_bind, mret, io_ret, emit, get_world, set_files, set_dirs,
    set_links in *;
  simpl in *.

Ltac run := vm_compute; reflexivity.

(** ** Strings *)

Lemma String_length_app (s1 s2 : string) :
  String.length (s1 +:+ s2) = String.length s1 + String.length s2.
Proof. induction s1 as [|c s1 IH]; simpl; [done | by rewrite IH]. Qed.

Lemma is_digit_digit (n : N) : is_digit (strconv.digit n) = true.
Proof.
  unfold is_digit, strconv.digit.
  assert (n mod 10 < 10)%N as Hlt by (by apply N.mod_lt).
  generalize dependent (n mod 10)%N. intros m Hlt.
  rewrite N_ascii_embedding by lia.
  apply andb_true_intro; split; apply N.leb_le; lia.
Qed.

Lemma all_digits_digits (fuel : nat) (n : N) (acc : string) :
  all_digits acc = true → decimal (strconv.digits fuel n acc) = true.
Proof.
  revert n acc. induction fuel as [|fuel IH]; intros n acc Hacc; simpl.
  - by rewrite is_digit_digit.
  - destruct (n / 10 =? 0)%N.
    + simpl. by rewrite is_digit_digit.
    + apply IH. simpl. by rewrite is_digit_digit.
Qed.

Lemma rand_Int_nonneg (o : oracle) : (0 ≤ rand.Int o)%Z.
Proof. unfold rand.Int. apply Z.land_nonneg. right. by compute. Qed.

Lemma rand_Int_bound (o : oracle) : (rand.Int o < 2 ^ 63)%Z.
Proof.
  unfold rand.Int. rewrite Z.land_ones by lia. apply Z.mod_pos_bound. lia.
Qed.

Lemma Itoa_decimal (i : Z) : (0 ≤ i)%Z → decimal (strconv.Itoa i) = true.
Proof.
  intros Hi. unfold strconv.Itoa.
  destruct (Z.ltb_spec i 0); [lia|].
  by apply all_digits_digits.
Qed.

Lemma decimal_length (s : string) : decimal s = true → 0 < String.length s.
Proof. destruct s; simpl; [done | lia]. Qed.

Lemma tmp_name_spec (o : oracle) (path file : string) :
  ∃ s, tmp_name o path file = (path +:+ file) +:+ ".tmp." +:+ s ∧ decimal s = true.
Proof.
  exists (strconv.Itoa (rand.Int o)). split; [done|].
  apply Itoa_decimal, rand_Int_nonneg.
Qed.

Lemma tmp_name_ne_prefix (o : oracle) (path file : string) :
  tmp_name o path file ≠ path +:+ file.
Proof.
  intros Heq. apply (f_equal String.length) in Heq.
  unfold tmp_name, fmt.Sprintf_tmp in Heq.
  rewrite !String_length_app in Heq. simpl in Heq. lia.
Qed.

Lemma tmp_name_ne_path (o : oracle) (path file : string) :
  tmp_name o path file ≠ path.
Proof.
  intros Heq. apply (f_equal String.length) in Heq.
  unfold tmp_name, fmt.Sprintf_tmp in Heq.
  rewrite !String_length_app in Heq. simpl in Heq. lia.
Qed.

Example Itoa_zero : strconv.Itoa 0 = "0".
Proof. reflexivity. Qed.

Example Itoa_max : strconv.Itoa (2 ^ 63 - 1) = "9223372036854775807".
Proof. by vm_compute. Qed.

Example Itoa_negative : strconv.Itoa (-120) = "-120".
Proof. by vm_compute. Qed.

Example tmp_name_example :
  tmp_name (calm 1234567890) "./cmd/files/" "hello_world.txt"
  = "./cmd/files/hello_world.txt.tmp.1234567890".
Proof. by vm_compute. Qed.

Example trim_examples :
  pathname.trim "./data/" = "./data" ∧ pathname.trim "a//b//" = "a//b" ∧
  pathname.trim "//" = "" ∧ pathname.parent "./data/sub/" = "./data/" ∧
  pathname.parent "data" = "" ∧ pathname.dir_of "./data/hello.txt" = "./data/".
Proof. by vm_compute. Qed.

(** ** What each call of package [os] does to the world *)

Lemma is_dir_ext w w' p :
  w_dirs w' = w_dirs w → w_links w' = w_links w → os.is_dir w' p = os.is_dir w p.
Proof. intros Hd Hl. unfold os.is_dir. by rewrite Hd, Hl. Qed.

Lemma is_link_ext w w' p :
  w_links w' = w_links w → os.is_link w' p = os.is_link w p.
Proof. intros Hl. unfold os.is_link. by rewrite Hl. Qed.

Lemma is_dir_mono w w' p :
  w_dirs w ⊆ w_dirs w' → w_links w ⊆ w_links w' →
  os.is_dir w p = true → os.is_dir w' p = true.
Proof.
  intros Hd Hl. unfold os.is_dir.
  rewrite !andb_true_iff, !orb_true_iff, !bool_decide_eq_true.
  intros [? Hk]. split; [done|].
  destruct Hk as [[[[?|?]|?]|?]|?]; auto 10.
Qed.

Lemma is_dir_valid w p :
  os.is_dir w p = true → p ≠ "" ∧ pathname.invalid p = None.
Proof.
  unfold os.is_dir.
  rewrite !andb_true_iff, negb_true_iff, bool_decide_eq_false,
    bool_decide_eq_true.
  by intros [[? ?] _].
Qed.

Lemma mkdir_plan_todo fuel w p todo :
  os.mkdir_plan fuel w p = (todo, None) →
  (os.is_dir w p = true ∧ todo = []) ∨
  (p ≠ "" ∧ pathname.invalid p = None ∧ ∃ ds, todo = (ds ++ [p])%list).
Proof.
  destruct fuel as [|fuel]; cbn [os.mkdir_plan];
    destruct (os.is_dir w p) eqn:Hd; try (intros [= <-]; by left);
    destruct (os.is_regular w p); try done;
    case_bool_decide as Hp; try done.
  - destruct (pathname.invalid p) eqn:Hv; [done|].
    intros [= <-]. right. split_and!; [done..|]. by exists [].
  - case_bool_decide.
    + destruct (pathname.invalid p) eqn:Hv; [done|].
      intros [= <-]. right. split_and!; [done..|]. by exists [].
    + destruct (os.mkdir_plan fuel w _) as [ds [e|]]; [done|].
      destruct (pathname.invalid p) eqn:Hv; [done|].
      intros [= <-]. right. split_and!; [done..|]. by exists ds.
Qed.

Lemma MkdirAll_inv o p perm w r w' :
  os.MkdirAll o p perm w = (r, w') →
  w_files w' = w_files w ∧
  w_links w' = w_links w ∧
  w_log w' = (w_log w ++ [EvMkdirAll p])%list ∧
  w_dirs w ⊆ w_dirs w' ∧
  (r = None → os.is_dir w' p = true).
Proof.
  unfold os.MkdirAll. io_simpl.
  destruct (os.mkdir_plan _ _ _) as [todo stop] eqn:Hplan.
  destruct (o_mkdir o) as [e|].
  { intros [= <- <-]. simpl. split_and!; try done. set_solver. }
  destruct stop as [e|].
  { intros [= <- <-]. simpl. split_and!; try done. set_solver. }
  intros [= <- <-]. simpl. split_and!; try done; [set_solver|]. intros _.
  assert (os.is_dir
            (World (w_files w) (w_dirs w) (w_links w)
               (w_log w ++ [EvMkdirAll p])) p = os.is_dir w p) as Hsame
    by (by apply is_dir_ext).
  apply mkdir_plan_todo in Hplan as [[Hd ->]|(Hp & Hv & ds & ->)].
  - eapply is_dir_mono; [| |by rewrite <- Hsame, Hsame]; simpl; set_solver.
  - unfold os.is_dir. simpl.
    rewrite !andb_true_iff, !orb_true_iff, negb_true_iff, !bool_decide_eq_true,
      bool_decide_eq_false.
    split; [done|]. left. right.
    rewrite fmap_app, list_to_set_app_L. simpl. set_solver.
Qed.

Lemma OpenFile_excl_inv o name perm w r w' :
  os.OpenFile o name flag_excl perm w = (r, w') →
  w_dirs w' = w_dirs w ∧
  w_links w' = w_links w ∧
  w_log w' = (w_log w ++ [EvOpenFile name flag_excl])%list ∧
  match r with
  | inl fp =>
      os.Name fp = name ∧ w_files w !! name = None ∧
      w_files w' = <[name := []]> (w_files w)
  | inr _ => w_files w' = w_files w
  end.
Proof.
  unfold os.OpenFile. io_simpl. intros H.
  destruct (o_open o); [by simplify_eq|].
  case_bool_decide; [by simplify_eq|].
  destruct (negb (bool_decide (pathname.invalid name = None)));
    [by simplify_eq|].
  destruct (_ || _); [by simplify_eq|].
  destruct (negb _); [by simplify_eq|].
  destruct (w_files w !! name) eqn:Hf; by simplify_eq.
Qed.

Lemma OpenFile_excl_exists o name perm w :
  is_Some (w_files w !! name) →
  ∃ e, os.OpenFile o name flag_excl perm w =
       (inr e, World (w_files w) (w_dirs w) (w_links w)
                 (w_log w ++ [EvOpenFile name flag_excl])).
Proof.
  intros [c Hc]. unfold os.OpenFile. io_simpl.
  destruct (o_open o); [by eexists|].
  case_bool_decide; [by eexists|].
  destruct (negb (bool_decide (pathname.invalid name = None)));
    [by eexists|].
  destruct (_ || _); [by eexists|].
  destruct (negb _); [by eexists|].
  rewrite Hc. by eexists.
Qed.

Lemma OpenFile_trunc_inv o name perm w r w' :
  os.OpenFile o name flag_trunc perm w = (r, w') →
  w_dirs w' = w_dirs w ∧
  w_links w' = w_links w ∧
  w_log w' = (w_log w ++ [EvOpenFile name flag_trunc])%list ∧
  match r with
  | inl fp => os.Name fp = name ∧ w_files w' = <[name := []]> (w_files w)
  | inr _ => w_files w' = w_files w
  end.
Proof.
  unfold os.OpenFile. io_simpl. intros H.
  destruct (o_open o); [by simplify_eq|].
  case_bool_decide; [by simplify_eq|].
  destruct (negb (bool_decide (pathname.invalid name = None)));
    [by simplify_eq|].
  destruct (_ || _); [by simplify_eq|].
  destruct (negb _); [by simplify_eq|].
  destruct (w_files w !! name) eqn:Hf; by simplify_eq.
Qed.

Lemma File_Write_inv o f b w n e w' :
  os.File_Write o f b w = ((n, e), w') →
  w_dirs w' = w_dirs w ∧
  w_links w' = w_links w ∧
  w_log w' = (w_log w ++ [EvWrite (os.Name f)])%list ∧
  (∀ p, p ≠ os.Name f → w_files w' !! p = w_files w !! p) ∧
  (∀ old, w_files w !! os.Name f = Some old →
          w_files w' = <[os.Name f := (take n b ++ drop n old)%list]> (w_files w)) ∧
  (w_files w !! os.Name f = None → w_files w' = w_files w) ∧
  (e = None → n = length b) ∧
  (n ≤ length b)%nat.
Proof.
  unfold os.File_Write. io_simpl. intros H.
  set (k := match o_write_accept o with
            | Some k => k `min` length b
            | None => length b
            end) in *.
  assert (k ≤ length b)%nat as Hk by (subst k; destruct (o_write_accept o); lia).
  destruct (w_files w !! os.Name f) as [old|] eqn:Hf; simpl in H;
    injection H as <- <- <-; simpl; split_and!; try done.
  - intros p Hp. by rewrite lookup_insert_ne.
  - by intros ? [= <-].
  - destruct (o_write o); [done|]. by case_decide.
  - destruct (o_write o); [done|]. by case_decide.
Qed.

(** A write that is short of the buffer is an error of [File.Write]. *)
Lemma File_Write_short o f b w n e w' :
  os.File_Write o f b w = ((n, e), w') → (n < length b)%nat → e ≠ None.
Proof.
  intros H Hn ->.
  apply File_Write_inv in H as (_ & _ & _ & _ & _ & _ & Hlen & _).
  specialize (Hlen eq_refl). lia.
Qed.

Lemma File_Sync_inv o f w r w' :
  os.File_Sync o f w = (r, w') →
  w_files w' = w_files w ∧ w_dirs w' = w_dirs w ∧ w_links w' = w_links w ∧
  w_log w' = (w_log w ++ [EvSync (os.Name f)])%list.
Proof.
  unfold os.File_Sync. io_simpl. intros H.
  destruct (o_sync o); by simplify_eq.
Qed.

Lemma File_Close_run f w :
  os.File_Close f w =
  (None, World (w_files w) (w_dirs w) (w_links w)
           (w_log w ++ [EvClose (os.Name f)])).
Proof. done. Qed.

Lemma Remove_inv o name w r w' :
  os.Remove o name w = (r, w') →
  w_files w' = match o_remove o with
               | None => delete name (w_files w)
               | Some _ => w_files w
               end ∧
  w_dirs w' = w_dirs w ∧ w_links w' = w_links w ∧
  w_log w' = (w_log w ++ [EvRemove name])%list.
Proof.
  unfold os.Remove. io_simpl. intros H.
  destruct (o_remove o); [by simplify_eq|].
  destruct (w_files w !! name) eqn:Hf; simplify_eq; simpl; split_and!; try done.
  by rewrite delete_id.
Qed.

(** Renaming onto what [Lstat] shows as a directory never succeeds and
    changes nothing. *)
Lemma Rename_refused o old new w :
  os.lstat_is_dir w new = true →
  ∃ e, os.Rename o old new w =
       (Some (LinkError "rename" old new e),
        World (w_files w) (w_dirs w) (w_links w) (w_log w ++ [EvRename old new])).
Proof.
  intros Hd. unfold os.Rename. io_simpl.
  assert (os.lstat_is_dir
            (World (w_files w) (w_dirs w) (w_links w)
               (w_log w ++ [EvRename old new])) new = true) as ->
    by (unfold os.lstat_is_dir in *;
        by erewrite is_dir_ext, is_link_ext by done).
  destruct (_ || _); by eexists.
Qed.

Lemma Rename_inv o old new w r w' :
  os.Rename o old new w = (r, w') →
  w_log w' = (w_log w ++ [EvRename old new])%list ∧
  (is_Some r →
   w_files w' = w_files w ∧ w_dirs w' = w_dirs w ∧ w_links w' = w_links w).
Proof.
  unfold os.Rename. io_simpl. intros H.
  repeat (case_bool_decide || case_match); simplify_eq; simpl; split; try done;
    by intros [? [=]].
Qed.

(** A rename of a regular file that succeeds: the new name was not a
    directory for [Lstat]; it now holds the file, and is no link any more. *)
Lemma Rename_file_done o old new w c w' :
  w_files w !! old = Some c →
  os.Rename o old new w = (None, w') →
  os.lstat_is_dir w new = false ∧
  w_files w' = <[new := c]> (delete old (w_files w)) ∧
  w_dirs w' = w_dirs w ∧
  w_links w' = w_links w ∖ {[new]} ∧
  w_log w' = (w_log w ++ [EvRename old new])%list.
Proof.
  intros Hc. unfold os.Rename. io_simpl.
  assert (os.lstat_is_dir
            (World (w_files w) (w_dirs w) (w_links w)
               (w_log w ++ [EvRename old new])) new = os.lstat_is_dir w new) as ->
    by (unfold os.lstat_is_dir; by erewrite is_dir_ext, is_link_ext by done).
  destruct (os.lstat_is_dir w new); [by destruct (_ || _)|].
  destruct (o_rename o); [done|]. rewrite Hc.
  case_bool_decide; [done|].
  destruct (negb (bool_decide (pathname.invalid new = None))); [done|].
  destruct (_ || _); [done|].
  destruct (negb _); [done|].
  by intros [= <-].
Qed.

Lemma Rename_error_shape o old new w e w' :
  os.Rename o old new w = (Some e, w') →
  ∃ en, e = LinkError "rename" old new en.
Proof.
  unfold os.Rename. io_simpl. intros H.
  repeat (case_bool_decide || case_match); simplify_eq; by eexists.
Qed.

Lemma mkdir_plan_dir fuel w p :
  os.is_dir w p = true → os.mkdir_plan fuel w p = ([], None).
Proof. intros Hd. destruct fuel; cbn [os.mkdir_plan]; by rewrite Hd. Qed.

Lemma MkdirAll_existing o path perm w :
  o_mkdir o = None → os.is_dir w path = true →
  os.MkdirAll o path perm w =
  (None, World (w_files w) (w_dirs w) (w_links w) (w_log w ++ [EvMkdirAll path])).
Proof.
  intros Ho Hd. unfold os.MkdirAll. io_simpl. rewrite Ho.
  assert (os.mkdir_plan (String.length path)
            (World (w_files w) (w_dirs w) (w_links w)
               (w_log w ++ [EvMkdirAll path])) path = ([], None)) as ->.
  { apply mkdir_plan_dir. by erewrite is_dir_ext by done. }
  simpl. by rewrite union_empty_l_L.
Qed.

(** ** The shape of a run *)

(** When the directory cannot be ensured, both writers stop there. *)
Lemma SaveData1_mkdir_fails o path file data w e w1 :
  os.MkdirAll o path 493 w = (Some e, w1) →
  SaveData1 o path file data w = (Some FolderErr, w1).
Proof. intros H. unfold SaveData1. by erewrite bind_run by exact H. Qed.

Lemma SaveData2_mkdir_fails o path file data w e w1 :
  os.MkdirAll o path 493 w = (Some e, w1) →
  SaveData2 o path file data w = (Some FolderErr, w1).
Proof. intros H. unfold SaveData2. by erewrite bind_run by exact H. Qed.

Lemma SaveData1_open_fails o path file data w w1 e w2 :
  os.MkdirAll o path 493 w = (None, w1) →
  os.OpenFile o (path +:+ file) flag_trunc 436 w1 = (inr e, w2) →
  SaveData1 o path file data w = (Some OpenErr, w2).
Proof.
  intros Hmk Hop. unfold SaveData1, mbind, io_bind. by rewrite Hmk, Hop.
Qed.

Lemma SaveData1_write_fails o path file data w w1 fp w2 n e w3 :
  os.MkdirAll o path 493 w = (None, w1) →
  os.OpenFile o (path +:+ file) flag_trunc 436 w1 = (inl fp, w2) →
  os.File_Write o fp data w2 = ((n, Some e), w3) →
  SaveData1 o path file data w =
  (Some WriteErr,
   World (w_files w3) (w_dirs w3) (w_links w3)
     (w_log w3 ++ [EvClose (os.Name fp)])).
Proof.
  intros Hmk Hop Hwr. unfold SaveData1, mbind, io_bind.
  by rewrite Hmk, Hop, Hwr.
Qed.

Lemma SaveData1_flushed o path file data w w1 fp w2 n w3 r w4 :
  os.MkdirAll o path 493 w = (None, w1) →
  os.OpenFile o (path +:+ file) flag_trunc 436 w1 = (inl fp, w2) →
  os.File_Write o fp data w2 = ((n, None), w3) →
  os.File_Sync o fp w3 = (r, w4) →
  SaveData1 o path file data w =
  (r, World (w_files w4) (w_dirs w4) (w_links w4)
        (w_log w4 ++ [EvClose (os.Name fp)])).
Proof.
  intros Hmk Hop Hwr Hsy. unfold SaveData1, mbind, io_bind.
  by rewrite Hmk, Hop, Hwr, Hsy.
Qed.

Lemma SaveData2_open_fails o path file data w w1 e w2 :
  os.MkdirAll o path 493 w = (None, w1) →
  os.OpenFile o (tmp_name o path file) flag_excl 436 w1 = (inr e, w2) →
  SaveData2 o path file data w = (Some OpenErr, w2).
Proof.
  intros H1 H2. unfold SaveData2. cbv zeta.
  erewrite bind_run by exact H1. cbv beta iota.
  by erewrite bind_run by exact H2.
Qed.

(** Once the temporary file is open, the rest of the call is the body
    followed by the deferred function. *)
Lemma SaveData2_opened o path file data w w1 fp w2 :
  os.MkdirAll o path 493 w = (None, w1) →
  os.OpenFile o (tmp_name o path file) flag_excl 436 w1 = (inl fp, w2) →
  SaveData2 o path file data w =
  (let '(r, err, w3) := SaveData2_body o (tmp_name o path file) path data fp w2 in
   (r, snd (SaveData2_deferred o (tmp_name o path file) fp err w3))).
Proof.
  intros H1 H2. unfold SaveData2. cbv zeta.
  erewrite bind_run by exact H1. cbv beta iota.
  erewrite bind_run by exact H2. cbv beta iota.
  unfold mbind at 1, io_bind at 1.
  destruct (SaveData2_body _ _ _ _ _ _) as [[r err] w3].
  unfold mbind, io_bind.
  by destruct (SaveData2_deferred _ _ _ _ _) as [[] w4].
Qed.

Lemma SaveData2_body_write_fails o tmp path data fp w2 n e w3 :
  os.File_Write o fp data w2 = ((n, Some e), w3) →
  SaveData2_body o tmp path data fp w2 = ((Some WriteErr, Some e), w3).
Proof. intros H. unfold SaveData2_body. by erewrite bind_run by exact H. Qed.

Lemma SaveData2_body_sync_fails o tmp path data fp w2 n w3 e w4 :
  os.File_Write o fp data w2 = ((n, None), w3) →
  os.File_Sync o fp w3 = (Some e, w4) →
  SaveData2_body o tmp path data fp w2 = ((Some SyncErr, Some e), w4).
Proof.
  intros H1 H2. unfold SaveData2_body.
  erewrite bind_run by exact H1. cbv beta iota.
  by erewrite bind_run by exact H2.
Qed.

(** When the rename is reached, its result is returned and the variable
    [err] is still [nil]. *)
Lemma SaveData2_body_synced o tmp path data fp w2 n w3 w4 :
  os.File_Write o fp data w2 = ((n, None), w3) →
  os.File_Sync o fp w3 = (None, w4) →
  SaveData2_body o tmp path data fp w2 =
  (let '(r, w5) := os.Rename o tmp path w4 in ((r, None), w5)).
Proof.
  intros H1 H2. unfold SaveData2_body.
  erewrite bind_run by exact H1. cbv beta iota.
  erewrite bind_run by exact H2. cbv beta iota.
  unfold mbind, io_bind. by destruct (os.Rename _ _ _ _).
Qed.

(** The deferred function closes the file; when [err] is set it calls
    [os.Remove] on the temporary file, which goes unless the removal fails. *)
Lemma deferred_inv o tmp fp err w :
  w_files (snd (SaveData2_deferred o tmp fp err w)) =
    match err, o_remove o with
    | Some _, None => delete tmp (w_files w)
    | _, _ => w_files w
    end ∧
  w_dirs (snd (SaveData2_deferred o tmp fp err w)) = w_dirs w ∧
  w_links (snd (SaveData2_deferred o tmp fp err w)) = w_links w ∧
  w_log (snd (SaveData2_deferred o tmp fp err w)) =
    (w_log w ++ EvClose (os.Name fp) ::
       match err with Some _ => [EvRemove tmp] | None => [] end)%list.
Proof.
  destruct err as [e|]; [|done].
  unfold SaveData2_deferred. rewrite (bind_run _ _ _ _ _ (File_Close_run fp w)).
  unfold mbind, io_bind.
  destruct (os.Remove o tmp _) as [r w'] eqn:Hr.
  apply Remove_inv in Hr as (Hf & Hd & Hk & Hl). simpl in *.
  rewrite Hf, Hd, Hk, Hl, <- app_assoc. by destruct (o_remove o).
Qed.

Lemma deferred_no_cleanup o tmp fp w :
  SaveData2_deferred o tmp fp None w =
  (tt, World (w_files w) (w_dirs w) (w_links w)
         (w_log w ++ [EvClose (os.Name fp)])).
Proof. done. Qed.

(** Every run of [SaveData1] is one of four: stopped at the directory,
    stopped at the open, stopped at the write with a prefix of the payload
    in the file, or run to the flush with the payload in the file. *)
Lemma SaveData1_cases o path file data w :
  let r := SaveData1 o path file data w in
  let t := path +:+ file in
  (fst r = Some FolderErr ∧ w_files (snd r) = w_files w ∧
   w_log (snd r) = (w_log w ++ [EvMkdirAll path])%list) ∨
  (fst r = Some OpenErr ∧ w_files (snd r) = w_files w ∧
   w_log (snd r) = (w_log w ++ [EvMkdirAll path; EvOpenFile t flag_trunc])%list) ∨
  (fst r = Some WriteErr ∧
   (∃ n, (n ≤ length data)%nat ∧
         w_files (snd r) = <[t := take n data]> (w_files w)) ∧
   w_log (snd r) = (w_log w ++ [EvMkdirAll path; EvOpenFile t flag_trunc;
                                EvWrite t; EvClose t])%list) ∨
  ((fst r = None ∨ ∃ e, fst r = Some (PathError "sync" t e)) ∧
   w_files (snd r) = <[t := data]> (w_files w) ∧
   w_log (snd r) = (w_log w ++ [EvMkdirAll path; EvOpenFile t flag_trunc;
                                EvWrite t; EvSync t; EvClose t])%list).
Proof.
  intros r t. subst r.
  destruct (os.MkdirAll o path 493 w) as [[e|] w1] eqn:Hmk.
  { left. rewrite (SaveData1_mkdir_fails _ _ _ _ _ _ _ Hmk). simpl.
    by apply MkdirAll_inv in Hmk as (? & _ & ? & _). }
  right.
  pose proof (MkdirAll_inv _ _ _ _ _ _ Hmk) as (Hf1 & _ & Hl1 & _).
  destruct (os.OpenFile o t flag_trunc 436 w1) as [[fp|e] w2] eqn:Hop;
    pose proof (OpenFile_trunc_inv _ _ _ _ _ _ Hop) as (_ & _ & Hl2 & Hf2).
  2:{ left. rewrite (SaveData1_open_fails _ _ _ _ _ _ _ _ Hmk Hop). simpl.
      by rewrite Hf2, Hf1, Hl2, Hl1, <- app_assoc. }
  right. destruct Hf2 as [Hname Hf2].
  destruct (os.File_Write o fp data w2) as [[n e] w3] eqn:Hwr.
  pose proof (File_Write_inv _ _ _ _ _ _ _ Hwr)
    as (_ & _ & Hl3 & _ & Hf3 & _ & Hn & Hle).
  rewrite Hname in Hf3, Hl3.
  assert (w_files w2 !! t = Some []) as Hcur
    by (rewrite Hf2; apply lookup_insert_eq).
  specialize (Hf3 _ Hcur).
  rewrite Hf2, Hf1, insert_insert_eq, drop_nil, app_nil_r in Hf3.
  destruct e as [e|].
  - left. rewrite (SaveData1_write_fails _ _ _ _ _ _ _ _ _ _ _ Hmk Hop Hwr).
    simpl. rewrite Hname. split_and!; [done | by eauto |].
    by rewrite Hl3, Hl2, Hl1, <- !app_assoc.
  - right. rewrite (Hn eq_refl), take_ge in Hf3 by lia.
    destruct (os.File_Sync o fp w3) as [re w4] eqn:Hsy.
    rewrite (SaveData1_flushed _ _ _ _ _ _ _ _ _ _ _ _ Hmk Hop Hwr Hsy).
    pose proof (File_Sync_inv _ _ _ _ _ Hsy) as (Hf4 & _ & _ & Hl4).
    rewrite Hname in Hl4. simpl. rewrite Hname. split_and!.
    + unfold os.File_Sync in Hsy. io_simpl.
      destruct (o_sync o); simplify_eq; [right|left]; [|done].
      rewrite Hname. by eexists.
    + by rewrite Hf4.
    + by rewrite Hl4, Hl3, Hl2, Hl1, <- !app_assoc.
Qed.

(** Every run of [SaveData2] is one of six: stopped at the directory, at
    the open, at the write, at the flush, or at the rename, which fails
    unless [path] names a symbolic link. *)
Lemma SaveData2_cases o path file data w :
  let r := SaveData2 o path file data w in
  let tmp := tmp_name o path file in
  (fst r = Some FolderErr ∧ w_files (snd r) = w_files w ∧
   w_links (snd r) = w_links w ∧
   w_log (snd r) = (w_log w ++ [EvMkdirAll path])%list) ∨
  (fst r = Some OpenErr ∧ w_files (snd r) = w_files w ∧
   w_links (snd r) = w_links w ∧ os.is_dir (snd r) path = true ∧
   w_log (snd r) = (w_log w ++ [EvMkdirAll path; EvOpenFile tmp flag_excl])%list) ∨
  (fst r = Some WriteErr ∧ w_files w !! tmp = None ∧
   (∃ n, (n ≤ length data)%nat ∧
         w_files (snd r) = match o_remove o with
                           | None => w_files w
                           | Some _ => <[tmp := take n data]> (w_files w)
                           end) ∧
   w_links (snd r) = w_links w ∧ os.is_dir (snd r) path = true ∧
   w_log (snd r) = (w_log w ++ [EvMkdirAll path; EvOpenFile tmp flag_excl;
                                EvWrite tmp; EvClose tmp; EvRemove tmp])%list) ∨
  (fst r = Some SyncErr ∧ w_files w !! tmp = None ∧
   w_files (snd r) = match o_remove o with
                     | None => w_files w
                     | Some _ => <[tmp := data]> (w_files w)
                     end ∧
   w_links (snd r) = w_links w ∧ os.is_dir (snd r) path = true ∧
   w_log (snd r) = (w_log w ++ [EvMkdirAll path; EvOpenFile tmp flag_excl;
                                EvWrite tmp; EvSync tmp; EvClose tmp;
                                EvRemove tmp])%list) ∨
  ((∃ e, fst r = Some (LinkError "rename" tmp path e)) ∧
   w_files w !! tmp = None ∧
   w_files (snd r) = <[tmp := data]> (w_files w) ∧
   w_links (snd r) = w_links w ∧ os.is_dir (snd r) path = true ∧
   w_log (snd r) = (w_log w ++ [EvMkdirAll path; EvOpenFile tmp flag_excl;
                                EvWrite tmp; EvSync tmp; EvRename tmp path;
                                EvClose tmp])%list) ∨
  (fst r = None ∧ os.is_link w path = true ∧
   w_files w !! tmp = None ∧
   w_files (snd r) = <[path := data]> (w_files w) ∧
   w_links (snd r) = w_links w ∖ {[path]} ∧
   w_log (snd r) = (w_log w ++ [EvMkdirAll path; EvOpenFile tmp flag_excl;
                                EvWrite tmp; EvSync tmp; EvRename tmp path;
                                EvClose tmp])%list).
Proof.
  intros r tmp. subst r.
  destruct (os.MkdirAll o path 493 w) as [[e|] w1] eqn:Hmk.
  { left. rewrite (SaveData2_mkdir_fails _ _ _ _ _ _ _ Hmk). simpl.
    by apply MkdirAll_inv in Hmk as (? & ? & ? & _). }
  right.
  pose proof (MkdirAll_inv _ _ _ _ _ _ Hmk) as (Hf1 & Hk1 & Hl1 & _ & Hd1).
  specialize (Hd1 eq_refl).
  destruct (os.OpenFile o tmp flag_excl 436 w1) as [[fp|e] w2] eqn:Hop;
    pose proof (OpenFile_excl_inv _ _ _ _ _ _ Hop) as (Hd2 & Hk2 & Hl2 & Hf2).
  2:{ left. rewrite (SaveData2_open_fails _ _ _ _ _ _ _ _ Hmk Hop).
      simpl. rewrite Hf2, Hf1, Hk2, Hk1, Hl2, Hl1, <- app_assoc.
      split_and!; try done. by rewrite (is_dir_ext w1 w2). }
  right. destruct Hf2 as (Hname & Hnew & Hf2). rewrite Hf1 in Hnew.
  rewrite (SaveData2_opened _ _ _ _ _ _ _ _ Hmk Hop). fold tmp.
  destruct (os.File_Write o fp data w2) as [[n e] w3] eqn:Hwr.
  pose proof (File_Write_inv _ _ _ _ _ _ _ Hwr)
    as (Hd3 & Hk3 & Hl3 & _ & Hf3 & _ & Hn & Hle).
  rewrite Hname in Hf3, Hl3.
  assert (w_files w2 !! tmp = Some []) as Hcur
    by (rewrite Hf2; apply lookup_insert_eq).
  specialize (Hf3 _ Hcur).
  rewrite Hf2, Hf1, insert_insert_eq, drop_nil, app_nil_r in Hf3.
  assert (os.is_dir w3 path = true) as Hdir3.
  { rewrite (is_dir_ext w1 w3) by congruence. exact Hd1. }
  destruct e as [e|].
  { left. rewrite (SaveData2_body_write_fails _ _ _ _ _ _ _ _ _ Hwr).
    cbv beta iota.
    destruct (deferred_inv o tmp fp (Some e) w3) as (Hfd & Hdd & Hkd & Hld).
    cbn [fst snd]. rewrite Hfd, Hkd, Hld, Hf3, Hname.
    split_and!; try done.
    - exists n. split; [done|]. destruct (o_remove o); [done|].
      by apply delete_insert_id.
    - congruence.
    - by rewrite (is_dir_ext w3 _).
    - by rewrite Hl3, Hl2, Hl1, <- !app_assoc. }
  right. rewrite (Hn eq_refl), take_ge in Hf3 by lia.
  destruct (os.File_Sync o fp w3) as [[e|] w4] eqn:Hsy;
    pose proof (File_Sync_inv _ _ _ _ _ Hsy) as (Hf4 & Hd4 & Hk4 & Hl4);
    rewrite Hname in Hl4.
  { left. rewrite (SaveData2_body_sync_fails _ _ _ _ _ _ _ _ _ _ Hwr Hsy).
    cbv beta iota.
    destruct (deferred_inv o tmp fp (Some e) w4) as (Hfd & Hdd & Hkd & Hld).
    cbn [fst snd]. rewrite Hfd, Hkd, Hld, Hf4, Hf3, Hname.
    split_and!; try done.
    - destruct (o_remove o); [done|]. by apply delete_insert_id.
    - congruence.
    - rewrite (is_dir_ext w3 _) by congruence. exact Hdir3.
    - by rewrite Hl4, Hl3, Hl2, Hl1, <- !app_assoc. }
  right. rewrite (SaveData2_body_synced _ _ _ _ _ _ _ _ _ Hwr Hsy).
  assert (os.is_dir w4 path = true) as Hdir4
    by (rewrite (is_dir_ext w3 w4) by congruence; exact Hdir3).
  assert (w_files w4 !! tmp = Some data) as Htmp4
    by (rewrite Hf4, Hf3; apply lookup_insert_eq).
  assert (w_links w4 = w_links w) as Hk by congruence.
  destruct (os.Rename o tmp path w4) as [[e|] w5] eqn:Hrn.
  - left. destruct (Rename_error_shape _ _ _ _ _ _ Hrn) as [en ->].
    apply Rename_inv in Hrn as (Hl5 & Hsame).
    destruct (Hsame (mk_is_Some _ _ eq_refl)) as (Hf5 & Hd5 & Hk5).
    cbv beta iota.
    destruct (deferred_inv o tmp fp None w5) as (Hfd & Hdd & Hkd & Hld).
    cbn [fst snd]. rewrite Hfd, Hkd, Hld, Hf5, Hk5, Hf4, Hf3, Hname.
    split_and!; try done.
    + by eexists.
    + rewrite (is_dir_ext w4 _) by congruence. exact Hdir4.
    + by rewrite Hl5, Hl4, Hl3, Hl2, Hl1, <- !app_assoc.
  - right.
    apply (Rename_file_done _ _ _ _ _ _ Htmp4) in Hrn
      as (Hls & Hf5 & Hd5 & Hk5 & Hl5).
    cbv beta iota.
    destruct (deferred_inv o tmp fp None w5) as (Hfd & Hdd & Hkd & Hld).
    cbn [fst snd]. rewrite Hfd, Hkd, Hld, Hf5, Hk5, Hf4, Hf3, Hname, Hk.
    split_and!; try done.
    + unfold os.lstat_is_dir in Hls. rewrite Hdir4 in Hls. simpl in Hls.
      apply negb_false_iff in Hls. by rewrite (is_link_ext w w4) in Hls.
    + by rewrite delete_insert_id.
    + by rewrite Hl5, Hl4, Hl3, Hl2, Hl1, <- !app_assoc.
Qed.

(** ** Failure to ensure the directory *)

(** C10, as amended: for [SaveData1] and for [SaveData2], when
    [os.MkdirAll] fails the call returns [FolderErr] and stops: the only
    call made is the [MkdirAll] itself, and no file is created, opened or
    modified.  The regular files and the links are as they were; the
    directories are those of before the call and, possibly, ancestors of
    [path] that the failed [MkdirAll] had created. *)
Theorem ensure_dir_failure_stops_the_call o path file data w e w1 :
  os.MkdirAll o path 493 w = (Some e, w1) →
  SaveData1 o path file data w = (Some FolderErr, w1) ∧
  SaveData2 o path file data w = (Some FolderErr, w1) ∧
  w_files w1 = w_files w ∧
  w_links w1 = w_links w ∧
  w_dirs w ⊆ w_dirs w1 ∧
  w_log w1 = (w_log w ++ [EvMkdirAll path])%list.
Proof.
  intros H. split_and!.
  - by eapply SaveData1_mkdir_fails.
  - by eapply SaveData2_mkdir_fails.
  - by apply MkdirAll_inv in H as (? & ? & ? & ? & _).
  - by apply MkdirAll_inv in H as (? & ? & ? & ? & _).
  - by apply MkdirAll_inv in H as (? & ? & ? & ? & _).
  - by apply MkdirAll_inv in H as (? & ? & ? & ? & _).
Qed.

(** A failed [MkdirAll] can leave a directory behind: for a path whose last
    directory name is too long, under the missing directory [./new], both
    writers return [FolderErr] and the directory [./new] has appeared. *)
Lemma failed_MkdirAll_leaves_ancestor :
  fst (SaveData1 (calm 0) overlong_path "x" bye empty_world) = Some FolderErr ∧
  fst (SaveData2 (calm 0) overlong_path "x" bye empty_world) = Some FolderErr ∧
  w_dirs (snd (SaveData1 (calm 0) overlong_path "x" bye empty_world))
    = {[ "./new" ]} ∧
  w_dirs (snd (SaveData2 (calm 0) overlong_path "x" bye empty_world))
    = {[ "./new" ]} ∧
  w_dirs (snd (SaveData1 (calm 0) overlong_path "x" bye empty_world))
    ≠ w_dirs empty_world.
Proof. split_and!; [run | run | run | run | by vm_compute]. Qed.

(** The same when the system fails the second [mkdir] of the call, as it
    does when the disk fills. *)
Example failed_MkdirAll_leaves_ancestor_on_full_disk :
  fst (SaveData1 mkdir_second_fails "./new/sub/" "x" bye empty_world)
    = Some FolderErr ∧
  w_dirs (snd (SaveData1 mkdir_second_fails "./new/sub/" "x" bye empty_world))
    = {[ "./new" ]}.
Proof. split; run. Qed.

(** ** Exclusive creation of the temporary file *)

(** C5: when a file with the generated temporary name exists, the exclusive
    create of [SaveData2] fails, the call returns [OpenErr], and the files,
    the one of that name among them, are exactly as before the call. *)
Theorem exclusive_create_collision o path file data w w1 :
  is_Some (w_files w !! tmp_name o path file) →
  os.MkdirAll o path 493 w = (None, w1) →
  (∃ e, fst (os.OpenFile o (tmp_name o path file) flag_excl 436 w1) = inr e) ∧
  fst (SaveData2 o path file data w) = Some OpenErr ∧
  w_files (snd (SaveData2 o path file data w)) !! tmp_name o path file
    = w_files w !! tmp_name o path file ∧
  w_files (snd (SaveData2 o path file data w)) = w_files w.
Proof.
  intros Hex Hmk.
  pose proof (MkdirAll_inv _ _ _ _ _ _ Hmk) as (Hf1 & _).
  rewrite <- Hf1 in Hex.
  destruct (OpenFile_excl_exists o (tmp_name o path file) 436 w1 Hex) as [e He].
  rewrite (SaveData2_open_fails _ _ _ _ _ _ _ _ Hmk He), He. simpl.
  rewrite Hf1. eauto.
Qed.

(** ** Failure of the write or of the flush *)





(** ** Failed and short writes *)

(** C6: in a call of [SaveData1] or of [SaveData2] that gets to write, a
    write that fails, or that writes fewer bytes than the payload has, makes
    the call return [WriteErr]. *)
Theorem failed_or_short_write_returns_WriteErr o path file data w w1 :
  os.MkdirAll o path 493 w = (None, w1) →
  (∀ fp w2 n e w3,
     os.OpenFile o (path +:+ file) flag_trunc 436 w1 = (inl fp, w2) →
     os.File_Write o fp data w2 = ((n, e), w3) →
     e ≠ None ∨ (n < length data)%nat →
     fst (SaveData1 o path file data w) = Some WriteErr) ∧
  (∀ fp w2 n e w3,
     os.OpenFile o (tmp_name o path file) flag_excl 436 w1 = (inl fp, w2) →
     os.File_Write o fp data w2 = ((n, e), w3) →
     e ≠ None ∨ (n < length data)%nat →
     fst (SaveData2 o path file data w) = Some WriteErr).
Proof.
  intros Hmk. split; intros fp w2 n e w3 Hop Hwr Hfail.
  - assert (e ≠ None) as He
      by (destruct Hfail; [done | by eapply File_Write_short]).
    destruct e as [e|]; [|done].
    unfold SaveData1.
    erewrite bind_run by exact Hmk. cbv beta iota.
    erewrite bind_run by exact Hop. cbv beta iota.
    unfold mbind at 1, io_bind at 1.
    erewrite bind_run by exact Hwr. done.
  - assert (e ≠ None) as He
      by (destruct Hfail; [done | by eapply File_Write_short]).
    destruct e as [e|]; [|done].
    rewrite (SaveData2_opened _ _ _ _ _ _ _ _ Hmk Hop).
    by erewrite SaveData2_body_write_fails by exact Hwr.
Qed.

(** ** The log of a call of [SaveData2] *)

Lemma SaveData2_log o path file data w :
  ∃ evs,
    w_log (snd (SaveData2 o path file data w)) = (w_log w ++ evs)%list ∧
    Forall (allowed path (tmp_name o path file)) evs.
Proof.
  destruct (SaveData2_cases o path file data w)
    as [(_ & _ & _ & Hl)|[(_ & _ & _ & _ & Hl)|[(_ & _ & _ & _ & _ & Hl)
       |[(_ & _ & _ & _ & _ & Hl)|[(_ & _ & _ & _ & _ & Hl)
       |(_ & _ & _ & _ & _ & Hl)]]]]];
    (eexists; split; [exact Hl|]); by repeat constructor.
Qed.

(** C9: the name of the temporary file of [SaveData2] is the target path
    followed by [.tmp.] and a decimal numeral, so it differs from the target
    path; every open, write, sync, close and remove of the call is made on
    the temporary name, and none on the target. *)
Theorem tmp_path_distinct_and_only_tmp_touched o path file data w :
  (∃ s, tmp_name o path file = (path +:+ file) +:+ ".tmp." +:+ s ∧
        decimal s = true) ∧
  tmp_name o path file ≠ path +:+ file ∧
  ∃ evs,
    w_log (snd (SaveData2 o path file data w)) = (w_log w ++ evs)%list ∧
    Forall (allowed path (tmp_name o path file)) evs ∧
    Forall (λ ev, ∀ p, file_of ev = Some p →
                       p = tmp_name o path file ∧ p ≠ path +:+ file) evs.
Proof.
  split; [apply tmp_name_spec|].
  split; [apply tmp_name_ne_prefix|].
  destruct (SaveData2_log o path file data w) as (evs & Hl & Hall).
  exists evs. split_and!; [done..|].
  eapply Forall_impl; [exact Hall|].
  intros ev Hev p Hp.
  assert (p = tmp_name o path file) as ->
    by (destruct ev; simpl in *; congruence).
  split; [done | apply tmp_name_ne_prefix].
Qed.

(** ** The rename of [SaveData2] *)

(** When the rename is reached and fails, the error of the rename is
    returned, the deferred function only closes the file, and the temporary
    file stays, holding the payload. *)
Lemma rename_failure_keeps_tmp o path file data w w1 fp w2 n w3 w4 e w5 :
  os.MkdirAll o path 493 w = (None, w1) →
  os.OpenFile o (tmp_name o path file) flag_excl 436 w1 = (inl fp, w2) →
  os.File_Write o fp data w2 = ((n, None), w3) →
  os.File_Sync o fp w3 = (None, w4) →
  os.Rename o (tmp_name o path file) path w4 = (Some e, w5) →
  SaveData2 o path file data w =
    (Some e, World (w_files w5) (w_dirs w5) (w_links w5)
               (w_log w5 ++ [EvClose (tmp_name o path file)])) ∧
  w_files w5 !! tmp_name o path file = Some data.
Proof.
  intros Hmk Hop Hwr Hsy Hrn.
  rewrite (SaveData2_opened _ _ _ _ _ _ _ _ Hmk Hop).
  rewrite (SaveData2_body_synced _ _ _ _ _ _ _ _ _ Hwr Hsy), Hrn.
  pose proof (OpenFile_excl_inv _ _ _ _ _ _ Hop)
    as (_ & _ & _ & Hname & _ & Hf2).
  rewrite deferred_no_cleanup, Hname. split; [done|].
  pose proof (File_Write_inv _ _ _ _ _ _ _ Hwr)
    as (_ & _ & _ & _ & Hf3 & _ & Hn & _).
  rewrite Hname in Hf3.
  assert (w_files w2 !! tmp_name o path file = Some []) as Hcur
    by (rewrite Hf2; apply lookup_insert_eq).
  specialize (Hf3 _ Hcur). rewrite (Hn eq_refl) in Hf3.
  apply File_Sync_inv in Hsy as (Hf4 & _ & _).
  apply Rename_inv in Hrn as (_ & Hf5).
  destruct (Hf5 (mk_is_Some _ _ eq_refl)) as (-> & _ & _).
  rewrite Hf4, Hf3, lookup_insert_eq.
  by rewrite take_ge, drop_ge, app_nil_r by (simpl; lia).
Qed.

(** [SaveData2] returns [nil] only when [path] names a symbolic link: the
    rename then replaces the link. *)
Lemma SaveData2_nil_needs_link o path file data w :
  fst (SaveData2 o path file data w) = None → os.is_link w path = true.
Proof.
  intros Hr.
  destruct (SaveData2_cases o path file data w)
    as [(H & _)|[(H & _)|[(H & _)|[(H & _)|[([e H] & _)|(_ & H & _)]]]]];
    congruence.
Qed.

Lemma is_link_ends_sep w p :
  pathname.ends_sep p = true → os.is_link w p = false.
Proof. intros H. unfold os.is_link. by rewrite H. Qed.

(** Unless it returns [nil], [SaveData2] leaves the file at the target path
    as it was. *)
Lemma SaveData2_target_untouched o path file data w :
  fst (SaveData2 o path file data w) ≠ None →
  w_files (snd (SaveData2 o path file data w)) !! (path +:+ file)
  = w_files w !! (path +:+ file).
Proof.
  intros Hr. pose proof (tmp_name_ne_prefix o path file) as Hne.
  destruct (SaveData2_cases o path file data w)
    as [(_ & Hf & _)|[(_ & Hf & _)|[(_ & _ & (n & _ & Hf) & _)
       |[(_ & _ & Hf & _)|[(_ & _ & Hf & _)|(H & _)]]]]];
    try done; rewrite Hf; try done;
    try (destruct (o_remove o); [|done]); by rewrite lookup_insert_ne.
Qed.

(** ** The flush of [SaveData1] *)

(** When the flush of [SaveData1] fails, the error of [File.Sync] itself is
    returned: a [PathError], which is not the sentinel [SyncErr]. *)
Lemma SaveData1_sync_failure_raw o path file data w w1 fp w2 n w3 e w4 :
  os.MkdirAll o path 493 w = (None, w1) →
  os.OpenFile o (path +:+ file) flag_trunc 436 w1 = (inl fp, w2) →
  os.File_Write o fp data w2 = ((n, None), w3) →
  os.File_Sync o fp w3 = (Some e, w4) →
  fst (SaveData1 o path file data w) = Some e ∧ e ≠ SyncErr.
Proof.
  intros Hmk Hop Hwr Hsy.
  rewrite (SaveData1_flushed _ _ _ _ _ _ _ _ _ _ _ _ Hmk Hop Hwr Hsy).
  split; [done|].
  unfold os.File_Sync in Hsy. io_simpl. destruct (o_sync o); by simplify_eq.
Qed.

(** ** The scenario of the specification, run on the model *)

Example saved_hello_has_hello :
  w_files saved_hello !! "./data/hello.txt" = Some hello ∧
  os.is_dir saved_hello "./data/" = true ∧
  fst (SaveData1 (calm 0) "./data/" "hello.txt" hello empty_world) = None.
Proof. split_and!; run. Qed.

(** C1: saving [Bye, World!] with [SaveData2] where [path] is [data], a
    symbolic link to a directory, and [file] is [/hello.txt]; no call fails.
    The call returns [nil], but the rename was made onto [path], not onto
    [path+file]: the link [data] has been replaced by a regular file that
    holds the payload, the target [data/hello.txt] does not hold it and
    cannot even be read any more. *)
Theorem save_through_link_returns_nil_without_saving :
  fst (SaveData2 (calm 7) "data" "/hello.txt" bye linked_store) = None ∧
  w_files (snd (SaveData2 (calm 7) "data" "/hello.txt" bye linked_store))
    !! ("data" +:+ "/hello.txt") = Some hello ∧
  os.ReadFile (snd (SaveData2 (calm 7) "data" "/hello.txt" bye linked_store))
    ("data" +:+ "/hello.txt") = None ∧
  w_files (snd (SaveData2 (calm 7) "data" "/hello.txt" bye linked_store))
    !! "data" = Some bye ∧
  w_links (snd (SaveData2 (calm 7) "data" "/hello.txt" bye linked_store)) = ∅ ∧
  w_log (snd (SaveData2 (calm 7) "data" "/hello.txt" bye linked_store))
    = [EvMkdirAll "data";
       EvOpenFile "data/hello.txt.tmp.7" flag_excl;
       EvWrite "data/hello.txt.tmp.7";
       EvSync "data/hello.txt.tmp.7";
       EvRename "data/hello.txt.tmp.7" "data";
       EvClose "data/hello.txt.tmp.7"].
Proof. split_and!; run. Qed.

(** C2: a call of [SaveData2] whose write and flush succeed and whose rename
    fails.  The error of the rename is returned, but the deferred function
    does not remove the temporary file: no [Remove] is logged and the file
    is still there. *)
Theorem rename_failure_orphans_tmp :
  fst (SaveData2 rename_fails "./data/" "hello.txt" bye empty_world)
    = Some (LinkError "rename" "./data/hello.txt.tmp.7" "./data/" EEXIST) ∧
  w_files (snd (SaveData2 rename_fails "./data/" "hello.txt" bye empty_world))
    !! "./data/hello.txt.tmp.7" = Some bye ∧
  w_log (snd (SaveData2 rename_fails "./data/" "hello.txt" bye empty_world))
    = [EvMkdirAll "./data/";
       EvOpenFile "./data/hello.txt.tmp.7" flag_excl;
       EvWrite "./data/hello.txt.tmp.7";
       EvSync "./data/hello.txt.tmp.7";
       EvRename "./data/hello.txt.tmp.7" "./data/";
       EvClose "./data/hello.txt.tmp.7"].
Proof. split_and!; run. Qed.

(** C4: saving the same payload twice with [SaveData2], no call failing by
    itself.  Both calls return the error of the rename; afterwards there is
    no file at [./data/hello.txt] and both temporary files are left. *)
Theorem save_twice_leaves_no_target :
  let twice :=
    (e1 ← SaveData2 (calm 1) "./data/" "hello.txt" hello;
     e2 ← SaveData2 (calm 2) "./data/" "hello.txt" hello;
     mret (e1, e2)) empty_world in
  fst twice
    = (Some (LinkError "rename" "./data/hello.txt.tmp.1" "./data/" EEXIST),
       Some (LinkError "rename" "./data/hello.txt.tmp.2" "./data/" EEXIST)) ∧
  w_files (snd twice) !! "./data/hello.txt" = None ∧
  w_files (snd twice) !! "./data/hello.txt.tmp.1" = Some hello ∧
  w_files (snd twice) !! "./data/hello.txt.tmp.2" = Some hello.
Proof. split_and!; run. Qed.

(** C7: a call of [SaveData1] whose flush fails.  The error returned is the
    [PathError] of [File.Sync], not [SyncErr]. *)
Theorem SaveData1_flush_failure_not_SyncErr :
  fst (SaveData1 flush_fails "./data/" "hello.txt" hello empty_world)
    = Some (PathError "sync" "./data/hello.txt" EIO) ∧
  fst (SaveData1 flush_fails "./data/" "hello.txt" hello empty_world)
    ≠ Some SyncErr ∧
  fst (SaveData2 flush_fails "./data/" "hello.txt" hello empty_world)
    = Some SyncErr.
Proof. split_and!; [run | by vm_compute | run]. Qed.

(** C8: a reader of the target [data/hello.txt], where [data] is a symbolic
    link to a directory and [SaveData2] is called with [path] [data] and
    [file] [/hello.txt].  Before the call the reader gets [Hello, World!];
    once the rename of the call has replaced the link, the reader gets
    nothing: neither the prior content nor the new one. *)
Theorem reader_after_rename_finds_no_target :
  os.ReadFile linked_store ("data" +:+ "/hello.txt") = Some hello ∧
  fst (SaveData2 (calm 3) "data" "/hello.txt" bye linked_store) = None ∧
  os.ReadFile (snd (SaveData2 (calm 3) "data" "/hello.txt" bye linked_store))
    ("data" +:+ "/hello.txt") = None ∧
  os.ReadFile (snd (SaveData2 (calm 3) "data" "/hello.txt" bye linked_store))
    ("data" +:+ "/hello.txt") ≠ Some hello ∧
  os.ReadFile (snd (SaveData2 (calm 3) "data" "/hello.txt" bye linked_store))
    ("data" +:+ "/hello.txt") ≠ Some bye.
Proof. split_and!; [run | run | run | by vm_compute | by vm_compute]. Qed.

(** ** The theorems at concrete calls *)

Lemma ensure_dir_failure_stops_the_call_witness :
  let w1 := snd (os.MkdirAll mkdir_denied "./data/" 493 empty_world) in
  SaveData1 mkdir_denied "./data/" "hello.txt" hello empty_world
    = (Some FolderErr, w1) ∧
  SaveData2 mkdir_denied "./data/" "hello.txt" hello empty_world
    = (Some FolderErr, w1) ∧
  w_files w1 = w_files empty_world ∧
  w_links w1 = w_links empty_world ∧
  w_dirs empty_world ⊆ w_dirs w1 ∧
  w_log w1 = (w_log empty_world ++ [EvMkdirAll "./data/"])%list.
Proof.
  apply (ensure_dir_failure_stops_the_call mkdir_denied "./data/"
           "hello.txt" hello empty_world (PathError "mkdir" "./data/" EACCES)).
  run.
Defined.

Lemma exclusive_create_collision_witness :
  (∃ e, fst (os.OpenFile (calm 7) (tmp_name (calm 7) "./data/" "hello.txt")
               flag_excl 436
               (snd (os.MkdirAll (calm 7) "./data/" 493 tmp_taken))) = inr e) ∧
  fst (SaveData2 (calm 7) "./data/" "hello.txt" bye tmp_taken) = Some OpenErr ∧
  w_files (snd (SaveData2 (calm 7) "./data/" "hello.txt" bye tmp_taken))
    !! tmp_name (calm 7) "./data/" "hello.txt"
    = w_files tmp_taken !! tmp_name (calm 7) "./data/" "hello.txt" ∧
  w_files (snd (SaveData2 (calm 7) "./data/" "hello.txt" bye tmp_taken))
    = w_files tmp_taken.
Proof.
  apply (exclusive_create_collision (calm 7) "./data/" "hello.txt" bye
           tmp_taken (snd (os.MkdirAll (calm 7) "./data/" 493 tmp_taken))).
  - exists hello. run.
  - run.
Defined.


Lemma failed_or_short_write_returns_WriteErr_witness :
  fst (SaveData1 short_write "./data/" "hello.txt" bye saved_hello)
    = Some WriteErr ∧
  fst (SaveData2 short_write "./data/" "hello.txt" bye saved_hello)
    = Some WriteErr.
Proof.
  pose (w1 := snd (os.MkdirAll short_write "./data/" 493 saved_hello)).
  pose (tmp := tmp_name short_write "./data/" "hello.txt").
  destruct (failed_or_short_write_returns_WriteErr short_write "./data/"
              "hello.txt" bye saved_hello w1) as [H1 H2]; [run|].
  split.
  - pose (fp := {| os.Name := "./data/hello.txt" |}).
    pose (w2 := snd (os.OpenFile short_write "./data/hello.txt" flag_trunc 436 w1)).
    apply (H1 fp w2 5 (Some ErrShortWrite)
             (snd (os.File_Write short_write fp bye w2))).
    + run.
    + run.
    + right. vm_compute. lia.
  - pose (fp := {| os.Name := tmp |}).
    pose (w2 := snd (os.OpenFile short_write tmp flag_excl 436 w1)).
    apply (H2 fp w2 5 (Some ErrShortWrite)
             (snd (os.File_Write short_write fp bye w2))).
    + run.
    + run.
    + right. vm_compute. lia.
Defined.

(** ** Decimal numerals denote the number they were made from *)

Lemma decimal_value_acc (s : string) (v : N) :
  decimal_value s v
  = (v * 10 ^ N.of_nat (String.length s) + decimal_value s 0)%N.
Proof.
  revert v. induction s as [|c s IH]; intros v.
  - simpl. lia.
  - cbn [decimal_value String.length].
    rewrite IH, (IH (0 * 10 + _)%N).
    rewrite Nat2N.inj_succ, N.pow_succ_r'. lia.
Qed.

Lemma decimal_value_digit (n : N) (acc : string) :
  (n < 10)%N →
  decimal_value (String (strconv.digit n) acc) 0
  = (n * 10 ^ N.of_nat (String.length acc) + decimal_value acc 0)%N.
Proof.
  intros Hn. cbn [decimal_value]. rewrite decimal_value_acc.
  unfold strconv.digit. rewrite N.mod_small by done.
  rewrite N_ascii_embedding by lia.
  replace (0 * 10 + (48 + n - 48))%N with n by lia. done.
Qed.

Lemma digits_value (fuel : nat) (n : N) (acc : string) :
  (n < 2 ^ N.of_nat (S fuel))%N →
  decimal_value (strconv.digits fuel n acc) 0
  = (n * 10 ^ N.of_nat (String.length acc) + decimal_value acc 0)%N.
Proof.
  revert n acc. induction fuel as [|fuel IH]; intros n acc Hn.
  - simpl in Hn. apply decimal_value_digit. lia.
  - cbn [strconv.digits].
    destruct (N.eqb_spec (n / 10) 0) as [Hz|Hnz].
    + apply decimal_value_digit. by apply N.div_small_iff in Hz.
    + rewrite IH.
      2:{ apply N.Div0.div_lt_upper_bound.
          rewrite Nat2N.inj_succ, N.pow_succ_r' in Hn. lia. }
      cbn [decimal_value String.length].
      rewrite decimal_value_acc, Nat2N.inj_succ, N.pow_succ_r'.
      unfold strconv.digit.
      assert (n mod 10 < 10)%N as Hm by (by apply N.mod_lt).
      pose proof (N.div_mod n 10 ltac:(done)) as Hdm.
      remember (n mod 10)%N as m eqn:Heqm.
      remember (n / 10)%N as q eqn:Heqq. clear Heqm Heqq.
      rewrite N_ascii_embedding by lia.
      replace (0 * 10 + (48 + m - 48))%N with m by lia.
      remember (10 ^ N.of_nat (String.length acc))%N as P eqn:HeqP.
      clear HeqP. subst n. lia.
Qed.

Lemma FormatUint_value (n : N) : decimal_value (strconv.FormatUint n) 0 = n.
Proof.
  unfold strconv.FormatUint. rewrite digits_value; [simpl; lia|].
  rewrite Nat2N.inj_succ, N2Nat.id.
  destruct (decide (n = 0%N)) as [->|Hn]; [done|].
  apply N.log2_spec. lia.
Qed.

Lemma Itoa_inj (a b : Z) :
  (0 ≤ a)%Z → (0 ≤ b)%Z → strconv.Itoa a = strconv.Itoa b → a = b.
Proof.
  intros Ha Hb. unfold strconv.Itoa.
  destruct (Z.ltb_spec a 0); [lia|]. destruct (Z.ltb_spec b 0); [lia|].
  intros Heq. apply (f_equal (λ s, decimal_value s 0)) in Heq.
  rewrite !FormatUint_value in Heq. lia.
Qed.

(** ** [SaveData1]: what a call returns and leaves behind *)

Lemma SaveData1_nil_files o path file data w :
  fst (SaveData1 o path file data w) = None →
  w_files (snd (SaveData1 o path file data w))
    = <[path +:+ file := data]> (w_files w).
Proof.
  intros Hr.
  destruct (SaveData1_cases o path file data w)
    as [(H & _)|[(H & _)|[(H & _)|(_ & Hf & _)]]]; congruence.
Qed.

(** X1: when [SaveData1] returns [nil], the files are those of before the
    call with the target holding exactly the payload: whatever the target
    held is replaced, and no other file is touched. *)
Theorem SaveData1_nil_saves_payload o path file data w :
  fst (SaveData1 o path file data w) = None →
  w_files (snd (SaveData1 o path file data w))
    = <[path +:+ file := data]> (w_files w) ∧
  w_files (snd (SaveData1 o path file data w)) !! (path +:+ file) = Some data.
Proof.
  intros Hr. apply SaveData1_nil_files in Hr.
  split; [done|]. rewrite Hr. apply lookup_insert_eq.
Qed.

(** X2: when [SaveData1] returns [WriteErr], the target has already been
    truncated: it holds a prefix of the payload, as long as what the write
    got through, and nothing of what it held before; the other files are
    untouched. *)
Theorem SaveData1_WriteErr_leaves_prefix o path file data w :
  fst (SaveData1 o path file data w) = Some WriteErr →
  ∃ n, (n ≤ length data)%nat ∧
       w_files (snd (SaveData1 o path file data w))
         = <[path +:+ file := take n data]> (w_files w).
Proof.
  intros Hr.
  destruct (SaveData1_cases o path file data w)
    as [(H & _)|[(H & _)|[(_ & Hf & _)|([H|[e H]] & _)]]]; congruence.
Qed.

(** X3: [SaveData1] returns [nil], one of the sentinels [FolderErr],
    [OpenErr], [WriteErr], or the error of [File.Sync] on the target; it
    never returns the sentinel [SyncErr]. *)
Theorem SaveData1_error_kinds o path file data w :
  (fst (SaveData1 o path file data w) = None ∨
   fst (SaveData1 o path file data w) = Some FolderErr ∨
   fst (SaveData1 o path file data w) = Some OpenErr ∨
   fst (SaveData1 o path file data w) = Some WriteErr ∨
   ∃ e, fst (SaveData1 o path file data w)
        = Some (PathError "sync" (path +:+ file) e)) ∧
  fst (SaveData1 o path file data w) ≠ Some SyncErr.
Proof.
  destruct (SaveData1_cases o path file data w)
    as [(H & _)|[(H & _)|[(H & _)|([H|[e H]] & _)]]];
    rewrite H; split; try done; eauto 10.
Qed.

(** X4: when [SaveData1] returns [FolderErr] or [OpenErr], no file has been
    created, truncated or written. *)
Theorem SaveData1_early_error_changes_nothing o path file data w :
  fst (SaveData1 o path file data w) = Some FolderErr ∨
  fst (SaveData1 o path file data w) = Some OpenErr →
  w_files (snd (SaveData1 o path file data w)) = w_files w.
Proof.
  intros Hr.
  destruct (SaveData1_cases o path file data w)
    as [(_ & Hf & _)|[(_ & Hf & _)|[(H & _)|([H|[e H]] & _)]]];
    try done; destruct Hr; congruence.
Qed.

(** X5: the calls that [SaveData1] makes, by what it returns.  The file is
    closed exactly once whenever it was opened, after the write and the
    flush; nothing is ever removed or renamed. *)
Theorem SaveData1_log_by_result o path file data w :
  w_log (snd (SaveData1 o path file data w)) =
  (w_log w ++
   match fst (SaveData1 o path file data w) with
   | Some FolderErr => [EvMkdirAll path]
   | Some OpenErr =>
       [EvMkdirAll path; EvOpenFile (path +:+ file) flag_trunc]
   | Some WriteErr =>
       [EvMkdirAll path; EvOpenFile (path +:+ file) flag_trunc;
        EvWrite (path +:+ file); EvClose (path +:+ file)]
   | _ =>
       [EvMkdirAll path; EvOpenFile (path +:+ file) flag_trunc;
        EvWrite (path +:+ file); EvSync (path +:+ file);
        EvClose (path +:+ file)]
   end)%list.
Proof.
  destruct (SaveData1_cases o path file data w)
    as [(H & _ & Hl)|[(H & _ & Hl)|[(H & _ & Hl)|([H|[e H]] & _ & Hl)]]];
    by rewrite H, Hl.
Qed.

(** X12: a call of [SaveData1] that returns [nil] leaves the target holding
    its payload whatever an earlier call of [SaveData1] on the same target
    did, a failed one with a partly written file included. *)
Theorem SaveData1_last_save_wins o1 o2 path file data1 data2 w :
  fst (SaveData1 o2 path file data2
         (snd (SaveData1 o1 path file data1 w))) = None →
  w_files (snd (SaveData1 o2 path file data2
                  (snd (SaveData1 o1 path file data1 w))))
    = <[path +:+ file := data2]> (w_files w).
Proof.
  intros Hr. apply SaveData1_nil_files in Hr as ->.
  destruct (SaveData1_cases o1 path file data1 w)
    as [(_ & Hf & _)|[(_ & Hf & _)|[(_ & (n & _ & Hf) & _)|(_ & Hf & _)]]];
    rewrite Hf; by rewrite ?insert_insert_eq.
Qed.

(** X14: no call of [SaveData1] changes a file other than the one at the
    target path [path+file]. *)
Theorem SaveData1_touches_only_target o path file data w p :
  p ≠ path +:+ file →
  w_files (snd (SaveData1 o path file data w)) !! p = w_files w !! p.
Proof.
  intros Hp.
  destruct (SaveData1_cases o path file data w)
    as [(_ & Hf & _)|[(_ & Hf & _)|[(_ & (n & _ & Hf) & _)|(_ & Hf & _)]]];
    rewrite Hf; by rewrite ?lookup_insert_ne.
Qed.

(** ** [SaveData2]: what a call returns and leaves behind *)

(** X6: [SaveData2] returns one of the sentinels [FolderErr], [OpenErr],
    [WriteErr], [SyncErr], the error of renaming the temporary file onto
    [path], or [nil].  It returns [nil] only when [path] names a symbolic
    link; in particular never when [path] ends with a separator. *)
Theorem SaveData2_error_kinds o path file data w :
  (fst (SaveData2 o path file data w) = Some FolderErr ∨
   fst (SaveData2 o path file data w) = Some OpenErr ∨
   fst (SaveData2 o path file data w) = Some WriteErr ∨
   fst (SaveData2 o path file data w) = Some SyncErr ∨
   (∃ e, fst (SaveData2 o path file data w)
         = Some (LinkError "rename" (tmp_name o path file) path e)) ∨
   fst (SaveData2 o path file data w) = None) ∧
  (fst (SaveData2 o path file data w) = None → os.is_link w path = true) ∧
  (pathname.ends_sep path = true → fst (SaveData2 o path file data w) ≠ None).
Proof.
  split_and!.
  - destruct (SaveData2_cases o path file data w)
      as [(H & _)|[(H & _)|[(H & _)|[(H & _)|[([e H] & _)|(H & _)]]]]];
      rewrite H; eauto 10.
  - apply SaveData2_nil_needs_link.
  - intros Hs Hr. apply SaveData2_nil_needs_link in Hr.
    by rewrite (is_link_ends_sep w path Hs) in Hr.
Qed.

(** X7: the files after a call of [SaveData2], by what it returns.  After
    [FolderErr] or [OpenErr] they are those of before the call.  After
    [WriteErr] or [SyncErr] every file but the temporary one is as before,
    and all of them are when the removal did not fail.  After the error of
    the rename they are those of before the call plus the temporary file,
    which did not exist and now holds the payload.  After [nil] they are
    those of before the call plus a regular file at [path], which holds the
    payload. *)
Theorem SaveData2_files_by_result o path file data w :
  match fst (SaveData2 o path file data w) with
  | Some FolderErr | Some OpenErr =>
      w_files (snd (SaveData2 o path file data w)) = w_files w
  | Some WriteErr | Some SyncErr =>
      (∀ p, p ≠ tmp_name o path file →
            w_files (snd (SaveData2 o path file data w)) !! p = w_files w !! p) ∧
      (o_remove o = None →
       w_files (snd (SaveData2 o path file data w)) = w_files w)
  | Some (LinkError _ _ _ _) =>
      w_files w !! tmp_name o path file = None ∧
      w_files (snd (SaveData2 o path file data w))
        = <[tmp_name o path file := data]> (w_files w)
  | None =>
      w_files (snd (SaveData2 o path file data w))
        = <[path := data]> (w_files w)
  | Some _ => True
  end.
Proof.
  destruct (SaveData2_cases o path file data w)
    as [(H & Hf & _)|[(H & Hf & _)|[(H & _ & (n & _ & Hf) & _)
       |[(H & _ & Hf & _)|[([e H] & Hn & Hf & _)|(H & _ & _ & Hf & _)]]]]];
    rewrite H; try done.
  - rewrite Hf. split.
    + intros p Hp. destruct (o_remove o); [|done]. by rewrite lookup_insert_ne.
    + by intros ->.
  - rewrite Hf. split.
    + intros p Hp. destruct (o_remove o); [|done]. by rewrite lookup_insert_ne.
    + by intros ->.
Qed.

(** X8: the calls that [SaveData2] makes, by what it returns.  The
    temporary file is closed exactly once whenever it was opened; it is
    removed after a failed write or flush and in no other case; the rename,
    when made, is of the temporary file onto [path]. *)
Theorem SaveData2_log_by_result o path file data w :
  w_log (snd (SaveData2 o path file data w)) =
  (w_log w ++
   let tmp := tmp_name o path file in
   match fst (SaveData2 o path file data w) with
   | Some FolderErr => [EvMkdirAll path]
   | Some OpenErr => [EvMkdirAll path; EvOpenFile tmp flag_excl]
   | Some WriteErr =>
       [EvMkdirAll path; EvOpenFile tmp flag_excl; EvWrite tmp;
        EvClose tmp; EvRemove tmp]
   | Some SyncErr =>
       [EvMkdirAll path; EvOpenFile tmp flag_excl; EvWrite tmp; EvSync tmp;
        EvClose tmp; EvRemove tmp]
   | _ =>
       [EvMkdirAll path; EvOpenFile tmp flag_excl; EvWrite tmp; EvSync tmp;
        EvRename tmp path; EvClose tmp]
   end)%list.
Proof.
  destruct (SaveData2_cases o path file data w)
    as [(H & _ & _ & Hl)|[(H & _ & _ & _ & Hl)|[(H & _ & _ & _ & _ & Hl)
       |[(H & _ & _ & _ & _ & Hl)|[([e H] & _ & _ & _ & _ & Hl)
       |(H & _ & _ & _ & _ & Hl)]]]]];
    by rewrite H, Hl.
Qed.

(** X9: two calls of [SaveData2] for the same target use the same temporary
    name exactly when [rand.Int] gave them the same number. *)
Theorem tmp_name_inj o1 o2 path file :
  tmp_name o1 path file = tmp_name o2 path file ↔ rand.Int o1 = rand.Int o2.
Proof.
  split.
  - unfold tmp_name, fmt.Sprintf_tmp. intros Heq.
    do 2 apply (inj (String.app _)) in Heq.
    apply Itoa_inj in Heq; [done | apply rand_Int_nonneg..].
  - unfold tmp_name. by intros ->.
Qed.

(** X10: when a call of [SaveData2] has failed at the rename, a later call
    for the same target that draws the same random number, and whose
    [MkdirAll] is not failed by the system, returns [OpenErr] and changes no
    file: the temporary file that the first call left is in its way. *)
Theorem SaveData2_same_stamp_collides o1 o2 path file data1 data2 w e :
  fst (SaveData2 o1 path file data1 w)
    = Some (LinkError "rename" (tmp_name o1 path file) path e) →
  rand.Int o2 = rand.Int o1 →
  o_mkdir o2 = None →
  fst (SaveData2 o2 path file data2 (snd (SaveData2 o1 path file data1 w)))
    = Some OpenErr ∧
  w_files (snd (SaveData2 o2 path file data2
                  (snd (SaveData2 o1 path file data1 w))))
    = <[tmp_name o1 path file := data1]> (w_files w).
Proof.
  intros Hr Hrand Hmk.
  assert (tmp_name o2 path file = tmp_name o1 path file) as Htmp
    by (unfold tmp_name; by rewrite Hrand).
  destruct (SaveData2_cases o1 path file data1 w)
    as [(H & _)|[(H & _)|[(H & _)|[(H & _)|[(_ & _ & Hf & _ & Hd & _)|(H & _)]]]]];
    try congruence.
  set (w' := snd (SaveData2 o1 path file data1 w)) in *.
  pose proof (MkdirAll_existing o2 path 493 w' Hmk Hd) as Hmk'.
  destruct (OpenFile_excl_exists o2 (tmp_name o2 path file) 436
              (World (w_files w') (w_dirs w') (w_links w')
                 (w_log w' ++ [EvMkdirAll path]))) as [e' He'].
  { simpl. rewrite Htmp, Hf, lookup_insert_eq. by eexists. }
  rewrite (SaveData2_open_fails _ _ _ _ _ _ _ _ Hmk' He'). by simpl.
Qed.

(** X13: unless it returns [nil], a call of [SaveData2] leaves the file at
    the target path [path+file] as it was. *)
Theorem SaveData2_error_leaves_target o path file data w :
  fst (SaveData2 o path file data w) ≠ None →
  w_files (snd (SaveData2 o path file data w)) !! (path +:+ file)
  = w_files w !! (path +:+ file).
Proof. apply SaveData2_target_untouched. Qed.

(** ** [main] *)

(** X11: whenever the first save of [main] returns [nil], the file
    [./cmd/files/hello_world.txt] holds [Hello, World!] when [main] ends,
    and the second save, which was to put [Bye, World!] there, has returned
    an error. *)
Theorem main_keeps_hello o1 o2 w :
  fst (fst (main o1 o2 w)) = None →
  w_files (snd (main o1 o2 w)) !! "./cmd/files/hello_world.txt"
    = Some (list_byte_of_string "Hello, World!") ∧
  snd (fst (main o1 o2 w)) ≠ None.
Proof.
  unfold main, mbind, io_bind, mret, io_ret.
  destruct (SaveData1 o1 _ _ _ w) as [e1 w1] eqn:H1.
  destruct (SaveData2 o2 _ _ _ w1) as [e2 w2] eqn:H2.
  simpl. intros ->.
  pose proof (SaveData1_nil_files o1 "./cmd/files/" "hello_world.txt"
                (list_byte_of_string "Hello, World!") w) as Hf1.
  rewrite H1 in Hf1. specialize (Hf1 eq_refl). simpl in Hf1.
  assert (e2 ≠ None) as Hne.
  { intros ->.
    pose proof (SaveData2_nil_needs_link o2 "./cmd/files/" "hello_world.txt"
                  (list_byte_of_string "Bye, World!") w1) as Hl.
    rewrite H2 in Hl. specialize (Hl eq_refl).
    by rewrite is_link_ends_sep in Hl. }
  pose proof (SaveData2_target_untouched o2 "./cmd/files/" "hello_world.txt"
                (list_byte_of_string "Bye, World!") w1) as Hf2.
  rewrite H2 in Hf2. specialize (Hf2 Hne). simpl in Hf2.
  split; [|done].
  change "./cmd/files/hello_world.txt"
    with ("./cmd/files/" +:+ "hello_world.txt").
  rewrite Hf2, Hf1. apply lookup_insert_eq.
Qed.

(** ** Calls whose steps succeed *)

Lemma File_Write_full o f b w :
  o_write o = None → o_write_accept o = None →
  fst (os.File_Write o f b w) = (length b, None).
Proof.
  intros Hw Ha. unfold os.File_Write. io_simpl. rewrite Hw, Ha.
  destruct (w_files w !! os.Name f); simpl; by rewrite decide_True.
Qed.

Lemma File_Sync_ok o f w :
  o_sync o = None → fst (os.File_Sync o f w) = None.
Proof. intros Hs. unfold os.File_Sync. io_simpl. by rewrite Hs. Qed.

(** X15: in a call of [SaveData1] where the directory is ensured, the file
    is opened and the system fails neither the write nor the flush, the
    call returns [nil] and the target holds the payload. *)
Theorem SaveData1_nil_when_write_and_flush_succeed o path file data w w1 fp w2 :
  os.MkdirAll o path 493 w = (None, w1) →
  os.OpenFile o (path +:+ file) flag_trunc 436 w1 = (inl fp, w2) →
  o_write o = None → o_write_accept o = None → o_sync o = None →
  fst (SaveData1 o path file data w) = None ∧
  w_files (snd (SaveData1 o path file data w)) !! (path +:+ file) = Some data.
Proof.
  intros Hmk Hop Hw Ha Hs.
  destruct (os.File_Write o fp data w2) as [[n e] w3] eqn:Hwr.
  pose proof (File_Write_full o fp data w2 Hw Ha) as Hfull.
  rewrite Hwr in Hfull. simpl in Hfull. injection Hfull as -> ->.
  destruct (os.File_Sync o fp w3) as [r w4] eqn:Hsy.
  pose proof (File_Sync_ok o fp w3 Hs) as Hok.
  rewrite Hsy in Hok. simpl in Hok. subst r.
  assert (fst (SaveData1 o path file data w) = None) as Hr
    by (by rewrite (SaveData1_flushed _ _ _ _ _ _ _ _ _ _ _ _ Hmk Hop Hwr Hsy)).
  split; [done|].
  rewrite (SaveData1_nil_files _ _ _ _ _ Hr). apply lookup_insert_eq.
Qed.

(** X16: in a call of [SaveData2] where the directory is ensured, the
    temporary file is created, the system fails neither the write nor the
    flush and [path] is not a symbolic link, the call fails at the rename:
    it returns the error of renaming the temporary file onto [path], and
    the temporary file stays, holding the payload. *)
Theorem SaveData2_stops_at_rename_unless_link o path file data w w1 fp w2 :
  os.MkdirAll o path 493 w = (None, w1) →
  os.OpenFile o (tmp_name o path file) flag_excl 436 w1 = (inl fp, w2) →
  o_write o = None → o_write_accept o = None → o_sync o = None →
  os.is_link w path = false →
  (∃ e, fst (SaveData2 o path file data w)
        = Some (LinkError "rename" (tmp_name o path file) path e)) ∧
  w_files (snd (SaveData2 o path file data w))
    = <[tmp_name o path file := data]> (w_files w).
Proof.
  intros Hmk Hop Hw Ha Hs Hlink.
  destruct (os.File_Write o fp data w2) as [[n e] w3] eqn:Hwr.
  pose proof (File_Write_full o fp data w2 Hw Ha) as Hfull.
  rewrite Hwr in Hfull. simpl in Hfull. injection Hfull as -> ->.
  destruct (os.File_Sync o fp w3) as [r w4] eqn:Hsy.
  pose proof (File_Sync_ok o fp w3 Hs) as Hok.
  rewrite Hsy in Hok. simpl in Hok. subst r.
  assert (fst (SaveData2 o path file data w) ≠ Some FolderErr ∧
          fst (SaveData2 o path file data w) ≠ Some OpenErr ∧
          fst (SaveData2 o path file data w) ≠ Some WriteErr ∧
          fst (SaveData2 o path file data w) ≠ Some SyncErr) as (H1 & H2 & H3 & H4).
  { rewrite (SaveData2_opened _ _ _ _ _ _ _ _ Hmk Hop).
    rewrite (SaveData2_body_synced _ _ _ _ _ _ _ _ _ Hwr Hsy).
    destruct (os.Rename o _ path w4) as [[e|] w5] eqn:Hrn; [|done].
    destruct (Rename_error_shape _ _ _ _ _ _ Hrn) as [en ->]. done. }
  destruct (SaveData2_cases o path file data w)
    as [(H & _)|[(H & _)|[(H & _)|[(H & _)|[(He & _ & Hf & _)|(_ & H & _)]]]]];
    try done. congruence.
Qed.

(** ** A reader of the target during a call of [SaveData2] *)










(** ** The further theorems at concrete calls *)

Lemma SaveData1_nil_saves_payload_witness :
  w_files (snd (SaveData1 (calm 0) "./data/" "hello.txt" bye saved_hello))
    = <["./data/" +:+ "hello.txt" := bye]> (w_files saved_hello) ∧
  w_files (snd (SaveData1 (calm 0) "./data/" "hello.txt" bye saved_hello))
    !! ("./data/" +:+ "hello.txt") = Some bye.
Proof.
  apply (SaveData1_nil_saves_payload (calm 0) "./data/" "hello.txt" bye
           saved_hello).
  run.
Defined.

Lemma SaveData1_WriteErr_leaves_prefix_witness :
  ∃ n, (n ≤ length bye)%nat ∧
       w_files (snd (SaveData1 short_write "./data/" "hello.txt" bye saved_hello))
         = <["./data/" +:+ "hello.txt" := take n bye]> (w_files saved_hello).
Proof.
  apply (SaveData1_WriteErr_leaves_prefix short_write "./data/" "hello.txt"
           bye saved_hello).
  run.
Defined.

Lemma SaveData1_early_error_changes_nothing_witness :
  w_files (snd (SaveData1 mkdir_denied "./data/" "hello.txt" bye saved_hello))
  = w_files saved_hello.
Proof.
  apply (SaveData1_early_error_changes_nothing mkdir_denied "./data/"
           "hello.txt" bye saved_hello).
  left. run.
Defined.

Lemma SaveData1_last_save_wins_witness :
  w_files (snd (SaveData1 (calm 0) "./data/" "hello.txt" hello
                  (snd (SaveData1 disk_full "./data/" "hello.txt" bye
                          empty_world))))
  = <["./data/" +:+ "hello.txt" := hello]> (w_files empty_world).
Proof.
  apply (SaveData1_last_save_wins disk_full (calm 0) "./data/" "hello.txt"
           bye hello empty_world).
  run.
Defined.

Lemma SaveData1_touches_only_target_witness :
  w_files (snd (SaveData1 (calm 0) "./data/" "hello.txt" bye tmp_taken))
    !! "./data/hello.txt.tmp.7"
  = w_files tmp_taken !! "./data/hello.txt.tmp.7".
Proof.
  apply (SaveData1_touches_only_target (calm 0) "./data/" "hello.txt" bye
           tmp_taken "./data/hello.txt.tmp.7").
  by vm_compute.
Defined.

Lemma SaveData2_same_stamp_collides_witness :
  fst (SaveData2 (calm (7 + 2 ^ 63)) "./data/" "hello.txt" hello
         (snd (SaveData2 (calm 7) "./data/" "hello.txt" bye empty_world)))
    = Some OpenErr ∧
  w_files (snd (SaveData2 (calm (7 + 2 ^ 63)) "./data/" "hello.txt" hello
                  (snd (SaveData2 (calm 7) "./data/" "hello.txt" bye
                          empty_world))))
    = <[tmp_name (calm 7) "./data/" "hello.txt" := bye]> (w_files empty_world).
Proof.
  apply (SaveData2_same_stamp_collides (calm 7) (calm (7 + 2 ^ 63)) "./data/"
           "hello.txt" bye hello empty_world EEXIST).
  - run.
  - run.
  - reflexivity.
Defined.

Lemma SaveData2_error_leaves_target_witness :
  w_files (snd (SaveData2 rename_fails "./data/" "hello.txt" bye saved_hello))
    !! ("./data/" +:+ "hello.txt")
  = w_files saved_hello !! ("./data/" +:+ "hello.txt").
Proof.
  apply (SaveData2_error_leaves_target rename_fails "./data/" "hello.txt" bye
           saved_hello).
  by vm_compute.
Defined.

Lemma main_keeps_hello_witness :
  w_files (snd (main (calm 1) (calm 2) empty_world))
    !! "./cmd/files/hello_world.txt"
    = Some (list_byte_of_string "Hello, World!") ∧
  snd (fst (main (calm 1) (calm 2) empty_world)) ≠ None.
Proof.
  apply (main_keeps_hello (calm 1) (calm 2) empty_world).
  run.
Defined.

Lemma SaveData1_nil_when_write_and_flush_succeed_witness :
  fst (SaveData1 (calm 0) "./data/" "hello.txt" hello empty_world) = None ∧
  w_files (snd (SaveData1 (calm 0) "./data/" "hello.txt" hello empty_world))
    !! ("./data/" +:+ "hello.txt") = Some hello.
Proof.
  pose (w1 := snd (os.MkdirAll (calm 0) "./data/" 493 empty_world)).
  apply (SaveData1_nil_when_write_and_flush_succeed (calm 0) "./data/"
           "hello.txt" hello empty_world w1
           {| os.Name := "./data/hello.txt" |}
           (snd (os.OpenFile (calm 0) "./data/hello.txt" flag_trunc 436 w1)));
    first [reflexivity | run].
Defined.

Lemma SaveData2_stops_at_rename_unless_link_witness :
  (∃ e, fst (SaveData2 (calm 7) "./data/" "hello.txt" bye saved_hello)
        = Some (LinkError "rename" (tmp_name (calm 7) "./data/" "hello.txt")
                  "./data/" e)) ∧
  w_files (snd (SaveData2 (calm 7) "./data/" "hello.txt" bye saved_hello))
    = <[tmp_name (calm 7) "./data/" "hello.txt" := bye]> (w_files saved_hello).
Proof.
  pose (w1 := snd (os.MkdirAll (calm 7) "./data/" 493 saved_hello)).
  pose (tmp := tmp_name (calm 7) "./data/" "hello.txt").
  apply (SaveData2_stops_at_rename_unless_link (calm 7) "./data/" "hello.txt"
           bye saved_hello w1 {| os.Name := tmp |}
           (snd (os.OpenFile (calm 7) tmp flag_excl 436 w1)));
    first [reflexivity | run].
Defined.



Example reader_sees_hello_throughout :
  os.ReadFile saved_hello "./data/hello.txt" = Some hello ∧
  os.ReadFile (snd (SaveData2 (calm 7) "./data/" "hello.txt" bye saved_hello))
    "./data/hello.txt" = Some hello.
Proof. split; run. Qed.
